(** * scripts/generate_sample_data.py: the sample-data generator

    A shallow embedding of the script that builds the 20-row sales table,
    writes it as a snappy-compressed Parquet file under [<root>/data] and
    prints a summary, together with the properties of its output contract.

    The Python values the script manipulates are modelled as follows:
    - [int] as [Z], [str] as [string], [float] as binary64 [float];
    - the [data] dict as an association list (dicts keep insertion order);
    - [pathlib.Path] as an anchor and a list of components (POSIX flavour);
    - the file system as a finite map from path strings to nodes;
    - statements as computations in a state-and-exception monad over the
      world (file system, standard output, standard error, effect log). *)

From Stdlib Require Import ZArith List String Ascii DecimalString PrimFloat Lia Sorted.
From stdpp Require Import base gmap strings list.
Import ListNotations.

Local Open Scope string_scope.
Local Open Scope Z_scope.

(** ** Python strings *)

Module PyStr.

(** [s.endswith(suffix)] *)
Definition endswith (s suffix : string) : bool :=
  let n := String.length s in
  let k := String.length suffix in
  (k <=? n)%nat && String.eqb (String.substring (n - k) k s) suffix.

(** [sep.join(parts)] *)
Fixpoint join (sep : string) (l : list string) : string :=
  match l with
  | [] => ""
  | [x] => x
  | x :: tl => x ++ sep ++ join sep tl
  end.

(** [s.split(sep)] for a one-character separator: the fields between the
    occurrences of [sep], empty fields included. *)
Fixpoint split_aux (sep : ascii) (cur : string) (s : string) : list string :=
  match s with
  | EmptyString => [cur]
  | String c tl =>
      if Ascii.eqb c sep then cur :: split_aux sep "" tl
      else split_aux sep (cur ++ String c "") tl
  end.

Definition split (sep : ascii) (s : string) : list string := split_aux sep "" s.

(** [s.splitlines()] for text whose only line break is the newline
    character: the last line needs no terminator. *)
Definition splitlines (s : string) : list string :=
  let l := split (ascii_of_nat 10) s in
  match List.last l "x" with
  | "" => removelast l
  | _ => l
  end.

(** [s1 < s2]: comparison by code points, position by position. *)
Definition lt (s1 s2 : string) : bool := String.ltb s1 s2.

Definition is_digit (c : ascii) : bool :=
  let n := nat_of_ascii c in (48 <=? n)%nat && (n <=? 57)%nat.

Fixpoint all_digits (s : string) : bool :=
  match s with
  | EmptyString => true
  | String c tl => is_digit c && all_digits tl
  end.

(** [s.zfill]-style left padding with a fill character up to [width]. *)
Definition lpad (fill : ascii) (width : nat) (s : string) : string :=
  String.concat "" (repeat (String fill "") (width - String.length s)) ++ s.

End PyStr.

(** ** Python integers and their formatting *)

Module PyInt.

(** [str(i)], also what [f"{i}"] produces. *)
Definition str (i : Z) : string := NilZero.string_of_int (Z.to_int i).

(** [int(s)] on a string of decimal digits, possibly after a minus sign;
    [None] where Python raises [ValueError]. *)
Definition parse (s : string) : option Z :=
  match s with
  | EmptyString => None
  | _ => option_map Z.of_int (NilZero.int_of_string s)
  end.

(** [f"{i:0Wd}"]: sign-aware zero padding to a minimum width of [W]
    characters, the sign counted in the width. *)
Definition format_0d (width : nat) (i : Z) : string :=
  if i <? 0
  then "-" ++ PyStr.lpad "0" (width - 1) (str (- i))
  else PyStr.lpad "0" width (str i).

(** [range(lo, hi)] *)
Definition range (lo hi : Z) : list Z :=
  map (fun k => lo + Z.of_nat k) (seq 0 (Z.to_nat (hi - lo))).

End PyInt.

(** ** pathlib (POSIX flavour) *)

Module Pathlib.

(** A pure path: its anchor (the empty string, [/] or [//]) and its
    components. *)
Record Path := mkPath { anchor : string; parts : list string }.

Fixpoint leading_slashes (s : string) : nat :=
  match s with
  | String "/" tl => S (leading_slashes tl)
  | _ => O
  end.

(** POSIX keeps exactly two leading slashes apart; any other number
    of them is the root. *)
Definition parse_anchor (s : string) : string :=
  match leading_slashes s with
  | O => ""
  | 2%nat => "//"
  | _ => "/"
  end.

Definition keep_part (c : string) : bool :=
  negb (String.eqb c "") && negb (String.eqb c ".").

(** [Path(s)]: empty components and [.] components are dropped. *)
Definition of_string (s : string) : Path :=
  mkPath (parse_anchor s) (List.filter keep_part (PyStr.split "/" s)).

(** [str(p)] *)
Definition str (p : Path) : string :=
  match anchor p, parts p with
  | "", [] => "."
  | a, ps => a ++ PyStr.join "/" ps
  end.

(** [p.parent]: the path without its last component; a path with no
    component is its own parent. *)
Definition parent (p : Path) : Path :=
  match parts p with
  | [] => p
  | ps => mkPath (anchor p) (removelast ps)
  end.

(** [p / s]: an anchored right operand replaces [p], otherwise its
    components are appended. *)
Definition truediv (p : Path) (s : string) : Path :=
  let q := of_string s in
  if String.eqb (anchor q) "" then mkPath (anchor p) (parts p ++ parts q)
  else q.

End Pathlib.

Infix "//" := Pathlib.truediv (at level 40, left associativity).

(** ** Exceptions *)

(** The classes the script's handlers distinguish, those its library calls
    raise, and [UserException] for any further class derived from
    [Exception]. *)
Inductive exn_class : Type :=
| BaseException
| SystemExit
| KeyboardInterrupt
| GeneratorExit
| Exception
| ImportError
| ModuleNotFoundError
| OSError
| FileExistsError
| FileNotFoundError
| NotADirectoryError
| IsADirectoryError
| PermissionError
| ValueError
| ArrowInvalid
| LookupError
| KeyError
| MemoryError
| UserException (name : string).

(** The direct base class; [BaseException] has none. *)
Definition base_class (c : exn_class) : option exn_class :=
  match c with
  | BaseException => None
  | SystemExit | KeyboardInterrupt | GeneratorExit | Exception => Some BaseException
  | ImportError | OSError | ValueError | LookupError | MemoryError
  | UserException _ => Some Exception
  | ModuleNotFoundError => Some ImportError
  | FileExistsError | FileNotFoundError | NotADirectoryError
  | IsADirectoryError | PermissionError => Some OSError
  | ArrowInvalid => Some ValueError
  | KeyError => Some LookupError
  end.

#[global] Instance exn_class_eq_dec : EqDecision exn_class.
Proof. solve_decision. Defined.

(** [issubclass(c, d)]; the hierarchy above is four levels deep. *)
Fixpoint issubclass_fuel (fuel : nat) (c d : exn_class) : bool :=
  if bool_decide (c = d) then true
  else match fuel, base_class c with
       | S k, Some b => issubclass_fuel k b d
       | _, _ => false
       end.

Definition issubclass : exn_class -> exn_class -> bool := issubclass_fuel 4.

(** A raised exception: its class and [str(e)], or [SystemExit(code)] as
    raised by [sys.exit(code)]. *)
Inductive exn : Type :=
| Raised (c : exn_class) (msg : string)
| SysExit (code : Z).

Definition class_of (e : exn) : exn_class :=
  match e with
  | Raised c _ => c
  | SysExit _ => SystemExit
  end.

(** [str(e)] *)
Definition exn_str (e : exn) : string :=
  match e with
  | Raised _ m => m
  | SysExit n => PyInt.str n
  end.

(** [isinstance(e, c)], the test of an [except c] clause. *)
Definition isinstance (e : exn) (c : exn_class) : bool := issubclass (class_of e) c.

(** ** pandas and pyarrow values *)

(** The element values of the literal lists. *)
Inductive pyval : Type :=
| PyS (s : string)
| PyF (f : float).

Definition is_str (v : pyval) : bool := match v with PyS _ => true | PyF _ => false end.
Definition is_float (v : pyval) : bool := match v with PyF _ => true | PyS _ => false end.

(** [v == s] for a string [s]; a float never equals a string. *)
Definition pyval_eq_str (v : pyval) (s : string) : bool :=
  match v with
  | PyS t => String.eqb t s
  | PyF _ => false
  end.

Inductive dtype : Type := dt_object | dt_float64.

Record Series := mkSeries { s_name : string; s_dtype : dtype; s_values : list pyval }.

(** A frame: its columns in order and the length of its index. *)
Record DataFrame := mkDataFrame { df_columns : list Series; df_len : nat }.

(** The dtype pandas infers for a list: [float64] for a non-empty list of
    floats, [object] otherwise. *)
Definition infer_dtype (l : list pyval) : dtype :=
  match l with
  | [] => dt_object
  | _ => if forallb is_float l then dt_float64 else dt_object
  end.

Inductive arrow_type : Type := arrow_string | arrow_double | arrow_null.

Record Field := mkField { f_name : string; f_type : arrow_type }.

Record Table := mkTable { schema : list Field; columns : list (list pyval); num_rows : nat }.

Definition column_names (t : Table) : list string := map f_name (schema t).
Definition num_columns (t : Table) : nat := length (columns t).

(** ** The world and the statement monad *)

Inductive node : Type :=
| Dir
| File (content : list Byte.byte).

(** The effects the script attempts, in order. *)
Inductive event : Type :=
| EvCall (f : string)
| EvMkdir (path : string)
| EvWrite (path : string) (table : Table) (compression : string).

Record world := mkWorld {
  fs : gmap string node;
  stdout : list string;
  stderr : list string;
  log : list event
}.

Definition init_world (fs0 : gmap string node) : world := mkWorld fs0 [] [] [].

Inductive result (A : Type) : Type :=
| Ok (a : A)
| Raise (e : exn).
Arguments Ok {A} a.
Arguments Raise {A} e.

Definition M (A : Type) : Type := world -> result A * world.

#[global] Instance M_ret : MRet M := fun A a w => (Ok a, w).

#[global] Instance M_bind : MBind M := fun A B k c w =>
  match c w with
  | (Ok a, w') => k a w'
  | (Raise e, w') => (Raise e, w')
  end.

Definition raise {A} (e : exn) : M A := fun w => (Raise e, w).

Definition get_fs : M (gmap string node) := fun w => (Ok (fs w), w).

Definition set_node (p : string) (n : node) : M unit :=
  fun w => (Ok tt, mkWorld (<[p := n]> (fs w)) (stdout w) (stderr w) (log w)).

Definition emit (ev : event) : M unit :=
  fun w => (Ok tt, mkWorld (fs w) (stdout w) (stderr w) (log w ++ [ev])).

Definition nl : string := String (ascii_of_nat 10) "".

(** [print(s)] writes [s] and a newline to standard output. *)
Definition print (s : string) : M unit :=
  fun w => (Ok tt, mkWorld (fs w) (stdout w ++ [s ++ nl]) (stderr w) (log w)).

(** [sys.exit(code)] *)
Definition sys_exit {A} (code : Z) : M A := raise (SysExit code).

(** [try: body / except c1 as e: h1 / except c2 as e: h2 ...]: the first
    clause whose class the exception is an instance of handles it; an
    exception raised inside a handler is not handled by its siblings. *)
Fixpoint dispatch {A} (handlers : list (exn_class * (exn -> M A))) (e : exn) : M A :=
  match handlers with
  | [] => raise e
  | (c, h) :: tl => if isinstance e c then h e else dispatch tl e
  end.

Definition try_except {A} (body : M A) (handlers : list (exn_class * (exn -> M A))) : M A :=
  fun w => match body w with
           | (Ok a, w') => (Ok a, w')
           | (Raise e, w') => dispatch handlers e w'
           end.

(** ** The environment of a run *)

(** The points of [generate_sample_data] at which the runtime or the
    operating system may raise on its own account (an interrupt, no memory,
    no space, no permission). *)
Inductive step : Type :=
| StepAssemble
| StepFrame
| StepConvert
| StepMkdir
| StepWrite.

Record env := mkEnv {
  (** [__file__] and [__name__] of the module *)
  env_file : string;
  env_name : string;
  (** what importing a module raises, [None] when it loads *)
  env_import : string -> option exn;
  (** what a step raises on the runtime's account, [None] when nothing *)
  env_fault : step -> option exn;
  (** when the write step fails: the number of bytes that had reached the
      file, [None] when the file was not opened at all *)
  env_partial : option nat;
  (** the installed Parquet writer: the bytes it produces for a table
      under a compression codec *)
  env_writer : Table -> string -> list Byte.byte
}.

Definition import_ (e : env) (module : string) : M unit :=
  match env_import e module with
  | Some x => raise x
  | None => mret tt
  end.

Definition fault (e : env) (s : step) : M unit :=
  match env_fault e s with
  | Some x => raise x
  | None => mret tt
  end.

(** ** Library calls *)

Module pd.

Definition same_length (data : list (string * list pyval)) : bool :=
  match data with
  | [] => true
  | (_, l) :: tl => forallb (fun kv => Nat.eqb (length (snd kv)) (length l)) tl
  end.

(** The frame of a dict of equally long lists: one column per key, in
    the order of the keys. *)
Definition build (data : list (string * list pyval)) : DataFrame :=
  mkDataFrame
    (map (fun kv => mkSeries (fst kv) (infer_dtype (snd kv)) (snd kv)) data)
    (match data with [] => 0%nat | (_, l) :: _ => length l end).

(** [pd.DataFrame(data)] for a dict of lists. *)
Definition DataFrame_ (e : env) (data : list (string * list pyval)) : M DataFrame :=
  fault e StepFrame ;;
  if same_length data then mret (build data)
  else raise (Raised ValueError "All arrays must be of the same length").

(** [len(df)] *)
Definition len (df : DataFrame) : Z := Z.of_nat (df_len df).

(** [df[name]]: the column of that name. *)
Definition getitem (df : DataFrame) (name : string) : M Series :=
  match find (fun c => String.eqb (s_name c) name) (df_columns df) with
  | Some c => mret c
  | None => raise (Raised KeyError ("'" ++ name ++ "'"))
  end.

(** [series == s]: the element-wise comparison, a boolean mask. *)
Definition eq_str (c : Series) (s : string) : list bool :=
  map (fun v => pyval_eq_str v s) (s_values c).

Fixpoint select {A} (mask : list bool) (l : list A) : list A :=
  match mask, l with
  | true :: m, x :: tl => x :: select m tl
  | false :: m, _ :: tl => select m tl
  | _, _ => []
  end.

(** [df[mask]]: the rows at which the mask is true. *)
Definition getitem_mask (df : DataFrame) (mask : list bool) : DataFrame :=
  mkDataFrame
    (map (fun c => mkSeries (s_name c) (s_dtype c) (select mask (s_values c))) (df_columns df))
    (length (select mask (seq 0 (df_len df)))).

End pd.

Module pa.

(** The Arrow type of a pandas column: [double] for [float64]; for
    [object], [string] when every value is a string. *)
Definition arrow_type_of (c : Series) : option arrow_type :=
  match s_dtype c with
  | dt_float64 => Some arrow_double
  | dt_object =>
      match s_values c with
      | [] => Some arrow_null
      | vs => if forallb is_str vs then Some arrow_string else None
      end
  end.

Fixpoint fields_of (cs : list Series) : option (list Field) :=
  match cs with
  | [] => Some []
  | c :: tl =>
      match arrow_type_of c, fields_of tl with
      | Some t, Some fs => Some (mkField (s_name c) t :: fs)
      | _, _ => None
      end
  end.

(** [pa.Table.from_pandas(df)]; the default range index of the frame is
    kept as metadata, not as a column. *)
Definition convert (df : DataFrame) : option Table :=
  match fields_of (df_columns df) with
  | Some fs => Some (mkTable fs (map s_values (df_columns df)) (df_len df))
  | None => None
  end.

Definition Table_from_pandas (e : env) (df : DataFrame) : M Table :=
  fault e StepConvert ;;
  match convert df with
  | Some t => mret t
  | None => raise (Raised ArrowInvalid "Could not convert value with type float")
  end.

End pa.

(** The operating system's view of a path: a path without components
    ([.], [/]) is a directory that always exists.  The exceptions the
    calls below raise carry the class the library raises and a message
    that names the path; no property depends on the wording. *)
Definition is_dir (m : gmap string node) (p : Pathlib.Path) : bool :=
  match Pathlib.parts p with
  | [] => true
  | _ => match m !! Pathlib.str p with
         | Some Dir => true
         | _ => false
         end
  end.

Definition errno_msg (errno : string) (p : Pathlib.Path) : string :=
  errno ++ ": '" ++ Pathlib.str p ++ "'".

(** [p.mkdir(exist_ok=...)], with [parents=False]. *)
Definition mkdir (e : env) (p : Pathlib.Path) (exist_ok : bool) : M unit :=
  emit (EvMkdir (Pathlib.str p)) ;;
  fault e StepMkdir ;;
  m ← get_fs ;
  match m !! Pathlib.str p with
  | Some n =>
      if exist_ok && is_dir m p then mret tt
      else raise (Raised FileExistsError (errno_msg "[Errno 17] File exists" p))
  | None =>
      if is_dir m p then
        (if exist_ok then mret tt
         else raise (Raised FileExistsError (errno_msg "[Errno 17] File exists" p)))
      else if is_dir m (Pathlib.parent p) then set_node (Pathlib.str p) Dir
      else match m !! Pathlib.str (Pathlib.parent p) with
           | Some _ => raise (Raised NotADirectoryError (errno_msg "[Errno 20] Not a directory" p))
           | None => raise (Raised FileNotFoundError (errno_msg "[Errno 2] No such file or directory" p))
           end
  end.

Module pq.

(** [pq.write_table(table, where, compression=...)]: the file is created
    or truncated and receives the writer's bytes; when the step fails
    after the file was opened, what had been written stays. *)
Definition write_table (e : env) (t : Table) (p : Pathlib.Path) (compression : string) : M unit :=
  emit (EvWrite (Pathlib.str p) t compression) ;;
  match env_fault e StepWrite with
  | Some x =>
      match env_partial e with
      | Some k => set_node (Pathlib.str p) (File (firstn k (env_writer e t compression)))
      | None => mret tt
      end ;;
      raise x
  | None =>
      m ← get_fs ;
      if is_dir m p then
        raise (Raised IsADirectoryError (errno_msg "[Errno 21] Is a directory" p))
      else if is_dir m (Pathlib.parent p) then
        set_node (Pathlib.str p) (File (env_writer e t compression))
      else
        raise (Raised FileNotFoundError (errno_msg "[Errno 2] No such file or directory" p))
  end.

End pq.

(** ** The script *)

Definition strs (l : list string) : list pyval := map PyS l.
Definition floats (l : list float) : list pyval := map PyF l.

Set Warnings "-inexact-float".

(** The [data] dict of [generate_sample_data], key by key. *)
Definition data : list (string * list pyval) :=
  [ ("customer_id",
      strs (map (fun i => "CUST" ++ PyInt.format_0d 4 i) (PyInt.range 1 21)));
    ("customer_name", strs
      [ "Alice Johnson"; "Bob Smith"; "Charlie Brown"; "Diana Prince"; "Eve Wilson";
        "Frank Miller"; "Grace Lee"; "Henry Davis"; "Ivy Chen"; "Jack Taylor";
        "Karen White"; "Liam O'Brien"; "Mia Garcia"; "Noah Martinez"; "Olivia Anderson";
        "Paul Thompson"; "Quinn Jackson"; "Rachel Green"; "Sam Wilson"; "Tina Brown" ]);
    ("customer_email", strs
      [ "alice.j@example.com"; "bob.smith@example.com"; "charlie.b@example.com";
        "diana.p@example.com"; "eve.w@example.com"; "frank.m@example.com";
        "grace.lee@example.com"; "henry.d@example.com"; "ivy.chen@example.com";
        "jack.t@example.com"; "karen.w@example.com"; "liam.ob@example.com";
        "mia.g@example.com"; "noah.m@example.com"; "olivia.a@example.com";
        "paul.t@example.com"; "quinn.j@example.com"; "rachel.g@example.com";
        "sam.w@example.com"; "tina.b@example.com" ]);
    ("ssn", strs
      [ "123-45-6789"; "234-56-7890"; "345-67-8901"; "456-78-9012"; "567-89-0123";
        "678-90-1234"; "789-01-2345"; "890-12-3456"; "901-23-4567"; "012-34-5678";
        "111-22-3333"; "222-33-4444"; "333-44-5555"; "444-55-6666"; "555-66-7777";
        "666-77-8888"; "777-88-9999"; "888-99-0000"; "999-00-1111"; "000-11-2222" ]);
    ("sales_region", strs
      [ "APAC"; "APAC"; "APAC"; "APAC"; "APAC";
        "EMEA"; "EMEA"; "EMEA"; "EMEA"; "EMEA";
        "AMER"; "AMER"; "AMER"; "AMER"; "AMER";
        "APAC"; "APAC"; "EMEA"; "AMER"; "APAC" ]);
    ("sales_amount", floats
      [ 1250.50; 2300.75; 1890.25; 3200.00; 1450.30;
        2100.00; 1750.50; 2900.25; 1650.75; 2400.00;
        1950.50; 2800.25; 1550.75; 3100.00; 2200.50;
        1850.25; 2600.75; 1400.00; 2700.50; 1900.25 ]%float);
    ("sale_date", strs
      [ "2024-01-15"; "2024-01-16"; "2024-01-17"; "2024-01-18"; "2024-01-19";
        "2024-02-10"; "2024-02-11"; "2024-02-12"; "2024-02-13"; "2024-02-14";
        "2024-03-05"; "2024-03-06"; "2024-03-07"; "2024-03-08"; "2024-03-09";
        "2024-04-20"; "2024-04-21"; "2024-04-22"; "2024-04-23"; "2024-04-24" ]) ].

(** [len(df[df['sales_region'] == region])] *)
Definition region_count (df : DataFrame) (region : string) : M Z :=
  col ← pd.getitem df "sales_region" ;
  mret (pd.len (pd.getitem_mask df (pd.eq_str col region))).

(** The paths [generate_sample_data] derives from [__file__]. *)
Definition script_dir (e : env) : Pathlib.Path := Pathlib.parent (Pathlib.of_string (env_file e)).
Definition project_root (e : env) : Pathlib.Path := Pathlib.parent (script_dir e).
Definition data_dir (e : env) : Pathlib.Path := project_root e // "data".
Definition output_file (e : env) : Pathlib.Path := data_dir e // "sales_sample.parquet".

Definition generate_sample_data (e : env) : M Pathlib.Path :=
  emit (EvCall "generate_sample_data") ;;
  fault e StepAssemble ;;
  df ← pd.DataFrame_ e data ;
  table ← pa.Table_from_pandas e df ;
  mkdir e (data_dir e) true ;;
  pq.write_table e table (output_file e) "snappy" ;;
  print "Sample data generated successfully!" ;;
  print ("File: " ++ Pathlib.str (output_file e)) ;;
  print ("Records: " ++ PyInt.str (pd.len df)) ;;
  print (nl ++ "Data summary:") ;;
  apac ← region_count df "APAC" ;
  print ("  APAC records: " ++ PyInt.str apac) ;;
  emea ← region_count df "EMEA" ;
  print ("  EMEA records: " ++ PyInt.str emea) ;;
  amer ← region_count df "AMER" ;
  print ("  AMER records: " ++ PyInt.str amer) ;;
  mret (output_file e).

(** The [if __name__ == '__main__'] block. *)
Definition main_block (e : env) : M unit :=
  try_except
    (generate_sample_data e ;; mret tt)
    [ (ImportError, fun _ =>
         print "Error: Required Python packages not installed." ;;
         print "Please install: pip install pandas pyarrow" ;;
         sys_exit 1);
      (Exception, fun ex =>
         print ("Error generating sample data: " ++ exn_str ex) ;;
         sys_exit 1) ].

(** The module body, top to bottom: the imports, the function definition
    (no effect), the main block. *)
Definition script (e : env) : M unit :=
  import_ e "pandas" ;;
  import_ e "pyarrow" ;;
  import_ e "pyarrow.parquet" ;;
  import_ e "pathlib" ;;
  import_ e "sys" ;;
  if String.eqb (env_name e) "__main__" then main_block e else mret tt.

(** ** The interpreter around the script *)

Definition class_name (c : exn_class) : string :=
  match c with
  | BaseException => "BaseException"
  | SystemExit => "SystemExit"
  | KeyboardInterrupt => "KeyboardInterrupt"
  | GeneratorExit => "GeneratorExit"
  | Exception => "Exception"
  | ImportError => "ImportError"
  | ModuleNotFoundError => "ModuleNotFoundError"
  | OSError => "OSError"
  | FileExistsError => "FileExistsError"
  | FileNotFoundError => "FileNotFoundError"
  | NotADirectoryError => "NotADirectoryError"
  | IsADirectoryError => "IsADirectoryError"
  | PermissionError => "PermissionError"
  | ValueError => "ValueError"
  | ArrowInvalid => "pyarrow.lib.ArrowInvalid"
  | LookupError => "LookupError"
  | KeyError => "KeyError"
  | MemoryError => "MemoryError"
  | UserException n => n
  end.

Record outcome := mkOutcome { exit_status : Z; final : world }.

(** Running the file as a program: a normal end exits with 0, [SystemExit]
    exits with its code, any other exception that reaches the top is
    reported on standard error as a traceback and exits with 1 (130, the
    interrupt signal, for [KeyboardInterrupt]). *)
Definition run (e : env) (fs0 : gmap string node) : outcome :=
  match script e (init_world fs0) with
  | (Ok _, w) => mkOutcome 0 w
  | (Raise (SysExit n), w) => mkOutcome n w
  | (Raise (Raised c m), w) =>
      mkOutcome (if bool_decide (c = KeyboardInterrupt) then 130 else 1)
        (mkWorld (fs w) (stdout w)
           (stderr w ++ ["Traceback (most recent call last):" ++ nl;
                         class_name c ++ ": " ++ m ++ nl])
           (log w))
  end.

(** The text on the console, and the text of a list of lines. *)
Definition console (w : world) : string := String.concat "" (stdout w).
Definition unlines (l : list string) : string := String.concat "" (map (fun s => s ++ nl) l).

(** A well-behaved environment: every import loads and no step fails on
    the runtime's account; the file is run as the main program. *)
Definition quiet_env (file : string) (writer : Table -> string -> list Byte.byte) : env :=
  mkEnv file "__main__" (fun _ => None) (fun _ => None) None writer.

(** ** What the script is expected to build *)

(** [data[key]] *)
Definition dict_get (d : list (string * list pyval)) (key : string) : list pyval :=
  match find (fun kv => String.eqb (fst kv) key) d with
  | Some kv => snd kv
  | None => []
  end.

(** The strings among a list of values. *)
Definition str_values (l : list pyval) : list string :=
  flat_map (fun v => match v with PyS s => [s] | PyF _ => [] end) l.

(** The column of a table under a field name. *)
Fixpoint column_at (fs : list Field) (cs : list (list pyval)) (name : string) : option (list pyval) :=
  match fs, cs with
  | f :: fs', c :: cs' => if String.eqb (f_name f) name then Some c else column_at fs' cs' name
  | _, _ => None
  end.

Definition table_column (t : Table) (name : string) : option (list pyval) :=
  column_at (schema t) (columns t) name.

(** The number of rows of the literal [sales_region] list with a value. *)
Definition region_rows (region : string) : Z :=
  Z.of_nat (length (List.filter (fun v => pyval_eq_str v region) (dict_get data "sales_region"))).

Definition sales_frame : DataFrame := pd.build data.

Definition sales_table : Table :=
  mkTable
    [ mkField "customer_id" arrow_string; mkField "customer_name" arrow_string;
      mkField "customer_email" arrow_string; mkField "ssn" arrow_string;
      mkField "sales_region" arrow_string; mkField "sales_amount" arrow_double;
      mkField "sale_date" arrow_string ]
    (map snd data) 20.

(** What a successful run prints, call by call. *)
Definition report (e : env) : list string :=
  [ "Sample data generated successfully!";
    "File: " ++ Pathlib.str (output_file e);
    "Records: 20";
    nl ++ "Data summary:";
    "  APAC records: 8";
    "  EMEA records: 6";
    "  AMER records: 6" ].

(** ** Worlds after a step *)

Definition with_log (w : world) (evs : list event) : world :=
  mkWorld (fs w) (stdout w) (stderr w) (log w ++ evs).

Definition with_fs (w : world) (m : gmap string node) : world :=
  mkWorld m (stdout w) (stderr w) (log w).

Definition with_stdout (w : world) (out : list string) : world :=
  mkWorld (fs w) (stdout w ++ out) (stderr w) (log w).

(** The file system once [p] is ensured to be a directory. *)
Definition ensure_dir (m : gmap string node) (p : Pathlib.Path) : gmap string node :=
  if is_dir m p then m else <[Pathlib.str p := Dir]> m.

(** The effects of a successful call, in order. *)
Definition success_log (e : env) : list event :=
  [ EvCall "generate_sample_data";
    EvMkdir (Pathlib.str (data_dir e));
    EvWrite (Pathlib.str (output_file e)) sales_table "snappy" ].

(** The file system once [data_dir] is ensured and the file is written. *)
Definition fs_after (e : env) (m : gmap string node) : gmap string node :=
  <[Pathlib.str (output_file e) := File (env_writer e sales_table "snappy")]>
    (ensure_dir m (data_dir e)).


(** A value fits an Arrow type. *)
Definition has_type (ty : arrow_type) (v : pyval) : bool :=
  match ty, v with
  | arrow_string, PyS _ => true
  | arrow_double, PyF _ => true
  | _, _ => false
  end.

(** The identifiers [CUST0001] to [CUST0020]. *)
Definition customer_ids : list string :=
  [ "CUST0001"; "CUST0002"; "CUST0003"; "CUST0004"; "CUST0005";
    "CUST0006"; "CUST0007"; "CUST0008"; "CUST0009"; "CUST0010";
    "CUST0011"; "CUST0012"; "CUST0013"; "CUST0014"; "CUST0015";
    "CUST0016"; "CUST0017"; "CUST0018"; "CUST0019"; "CUST0020" ].

(** The literal [customer_email] and [sale_date] lists, as strings. *)
Definition customer_emails : list string := str_values (dict_get data "customer_email").
Definition sale_dates : list string := str_values (dict_get data "sale_date").

(** A concrete run: the script in [/repo/scripts], a writer that emits
    the four magic bytes [PAR1] and one byte per row. *)
Definition magic_writer : Table -> string -> list Byte.byte :=
  fun t _ => ([Byte.x50; Byte.x41; Byte.x52; Byte.x31] ++ repeat Byte.x00 (num_rows t))%list.

Definition repo_fs : gmap string node :=
  <["/repo/scripts" := Dir]> (<["/repo" := Dir]> ∅).

Definition repo_env : env := quiet_env "/repo/scripts/generate_sample_data.py" magic_writer.

(** The same run on a machine without pandas. *)
Definition no_pandas_env : env :=
  mkEnv "/repo/scripts/generate_sample_data.py" "__main__"
    (fun m => if String.eqb m "pandas"
              then Some (Raised ModuleNotFoundError "No module named 'pandas'")
              else None)
    (fun _ => None) None magic_writer.

(** The same run, interrupted from the keyboard while the file is being
    written, 8 bytes in. *)
Definition interrupted_env : env :=
  mkEnv "/repo/scripts/generate_sample_data.py" "__main__"
    (fun _ => None)
    (fun s => match s with StepWrite => Some (Raised KeyboardInterrupt "") | _ => None end)
    (Some 8%nat) magic_writer.


(** ** Dates in [YYYY-MM-DD] form *)

Definition parse_date (s : string) : option (Z * Z * Z) :=
  match PyStr.split "-" s with
  | [y; m; d] =>
      match PyInt.parse y, PyInt.parse m, PyInt.parse d with
      | Some y', Some m', Some d' => Some (y', m', d')
      | _, _, _ => None
      end
  | _ => None
  end.

(** Calendar order on (year, month, day). *)
Definition date_lt (a b : Z * Z * Z) : bool :=
  let '(y1, m1, d1) := a in
  let '(y2, m2, d2) := b in
  (y1 <? y2) || ((y1 =? y2) && ((m1 <? m2) || ((m1 =? m2) && (d1 <? d2)))).

Definition chrono_lt (s1 s2 : string) : bool :=
  match parse_date s1, parse_date s2 with
  | Some a, Some b => date_lt a b
  | _, _ => false
  end.

(** Every element is below each later one. *)
Fixpoint increasing {A} (lt : A -> A -> bool) (l : list A) : bool :=
  match l with
  | [] => true
  | x :: tl => forallb (lt x) tl && increasing lt tl
  end.

(** ** Further runs and expected outputs *)

(** What the handlers of the main block print for an exception. *)
Definition handler_output (x : exn) : list string :=
  if isinstance x ImportError then
    [ "Error: Required Python packages not installed." ++ nl;
      "Please install: pip install pandas pyarrow" ++ nl ]
  else if isinstance x Exception then
    [ "Error generating sample data: " ++ exn_str x ++ nl ]
  else [].

(** The five modules the file imports, in order. *)
Definition imported_modules : list string :=
  ["pandas"; "pyarrow"; "pyarrow.parquet"; "pathlib"; "sys"].


(** The repository with a regular file where the data directory goes. *)
Definition blocked_fs : gmap string node :=
  <["/repo/data" := File []]> repo_fs.

(** The script run from a checkout that is not there any more: no
    [/repo] in the file system. *)
Definition orphan_fs : gmap string node := ∅.

(** The same run with an [ImportError] raised during the conversion to
    an Arrow table. *)
Definition late_import_env : env :=
  mkEnv "/repo/scripts/generate_sample_data.py" "__main__"
    (fun _ => None)
    (fun s => match s with
              | StepConvert => Some (Raised ImportError "cannot import name 'lib'")
              | _ => None
              end)
    None magic_writer.

(** The file imported as a module by another program. *)
Definition module_env : env :=
  mkEnv "/repo/scripts/generate_sample_data.py" "generate_sample_data"
    (fun _ => None) (fun _ => None) None magic_writer.

(** The script started by its bare name from its own directory. *)
Definition bare_env : env := quiet_env "generate_sample_data.py" magic_writer.

(** The identifier of the row numbered [i], [f'CUST{i:04d}']. *)
Definition customer_id_of (i : Z) : string := "CUST" ++ PyInt.format_0d 4 i.

(** * Properties *)

(** ** The library calls on the literal data *)

Lemma frame_of_data e w :
  pd.DataFrame_ e data w =
  match env_fault e StepFrame with
  | Some x => (Raise x, w)
  | None => (Ok sales_frame, w)
  end.
Proof.
  unfold pd.DataFrame_, fault, mbind, M_bind.
  destruct (env_fault e StepFrame); [reflexivity|].
  replace (pd.same_length data) with true by (vm_compute; reflexivity).
  reflexivity.
Qed.

Lemma convert_sales_frame : pa.convert sales_frame = Some sales_table.
Proof. vm_compute. reflexivity. Qed.

Lemma table_of_frame e w :
  pa.Table_from_pandas e sales_frame w =
  match env_fault e StepConvert with
  | Some x => (Raise x, w)
  | None => (Ok sales_table, w)
  end.
Proof.
  unfold pa.Table_from_pandas, fault, mbind, M_bind.
  destruct (env_fault e StepConvert); [reflexivity|].
  rewrite convert_sales_frame. reflexivity.
Qed.

Lemma region_count_apac w : region_count sales_frame "APAC" w = (Ok 8, w).
Proof. vm_compute. reflexivity. Qed.

Lemma region_count_emea w : region_count sales_frame "EMEA" w = (Ok 6, w).
Proof. vm_compute. reflexivity. Qed.

Lemma region_count_amer w : region_count sales_frame "AMER" w = (Ok 6, w).
Proof. vm_compute. reflexivity. Qed.

Lemma region_rows_values :
  region_rows "APAC" = 8 /\ region_rows "EMEA" = 6 /\ region_rows "AMER" = 6.
Proof. repeat split; vm_compute; reflexivity. Qed.

(** ** One step at a time *)

Lemma mkdir_cases e p w :
  (exists x, mkdir e p true w = (Raise x, with_log w [EvMkdir (Pathlib.str p)])) \/
  (env_fault e StepMkdir = None /\
   mkdir e p true w =
   (Ok tt, with_fs (with_log w [EvMkdir (Pathlib.str p)]) (ensure_dir (fs w) p))).
Proof.
  unfold mkdir, fault, emit, get_fs, set_node, mbind, M_bind, mret, M_ret, raise,
    with_log, with_fs, ensure_dir.
  destruct (env_fault e StepMkdir) as [x|]; [left; eauto|].
  cbn [fs stdout stderr log andb].
  destruct (is_dir (fs w) p) eqn:Hd.
  - destruct (fs w !! Pathlib.str p); right; split; reflexivity.
  - destruct (fs w !! Pathlib.str p) as [n|] eqn:Hl; [left; eauto|].
    destruct (is_dir (fs w) (Pathlib.parent p)).
    + right; split; reflexivity.
    + destruct (fs w !! Pathlib.str (Pathlib.parent p)); left; eauto.
Qed.

Lemma write_cases e t p c w :
  (exists x m, pq.write_table e t p c w = (Raise x, with_fs (with_log w [EvWrite (Pathlib.str p) t c]) m) /\
     (m = fs w \/
      exists k, env_fault e StepWrite = Some x /\ env_partial e = Some k /\
                m = <[Pathlib.str p := File (firstn k (env_writer e t c))]> (fs w))) \/
  (env_fault e StepWrite = None /\
   pq.write_table e t p c w =
   (Ok tt, with_fs (with_log w [EvWrite (Pathlib.str p) t c])
             (<[Pathlib.str p := File (env_writer e t c)]> (fs w)))).
Proof.
  unfold pq.write_table, emit, get_fs, set_node, mbind, M_bind, mret, M_ret, raise,
    with_log, with_fs.
  destruct (env_fault e StepWrite) as [x|]; cbn [fs stdout stderr log].
  - left. destruct (env_partial e) as [k|]; cbn [fs stdout stderr log].
    + exists x, (<[Pathlib.str p := File (firstn k (env_writer e t c))]> (fs w)).
      split; [reflexivity|]. right. exists k. auto.
    + exists x, (fs w). split; [reflexivity|]. left; reflexivity.
  - destruct (is_dir (fs w) p).
    + left. eexists _, (fs w). split; [reflexivity|]. left; reflexivity.
    + destruct (is_dir (fs w) (Pathlib.parent p)).
      * right. split; reflexivity.
      * left. eexists _, (fs w). split; [reflexivity|]. left; reflexivity.
Qed.

(** [generate_sample_data], step by step: the first step that raises ends
    the call; otherwise the report is printed and the path returned. *)
Lemma generate_steps e w :
  generate_sample_data e w =
  let w1 := with_log w [EvCall "generate_sample_data"] in
  match env_fault e StepAssemble with
  | Some x => (Raise x, w1)
  | None =>
    match env_fault e StepFrame with
    | Some x => (Raise x, w1)
    | None =>
      match env_fault e StepConvert with
      | Some x => (Raise x, w1)
      | None =>
        match mkdir e (data_dir e) true w1 with
        | (Raise x, w2) => (Raise x, w2)
        | (Ok _, w2) =>
          match pq.write_table e sales_table (output_file e) "snappy" w2 with
          | (Raise x, w3) => (Raise x, w3)
          | (Ok _, w3) =>
              (Ok (output_file e), with_stdout w3 (map (fun s => s ++ nl) (report e)))
          end
        end
      end
    end
  end.
Proof.
  unfold generate_sample_data.
  unfold mbind at 1, M_bind at 1. unfold emit at 1.
  unfold mbind at 1, M_bind at 1. unfold fault at 1.
  fold (with_log w [EvCall "generate_sample_data"]).
  set (w1 := with_log w _). cbv zeta.
  destruct (env_fault e StepAssemble) as [x|]; [reflexivity|].
  unfold mret at 1, M_ret at 1.
  unfold mbind at 1, M_bind at 1. rewrite frame_of_data.
  destruct (env_fault e StepFrame) as [x|]; [reflexivity|].
  unfold mbind at 1, M_bind at 1. rewrite table_of_frame.
  destruct (env_fault e StepConvert) as [x|]; [reflexivity|].
  unfold mbind at 1, M_bind at 1.
  destruct (mkdir e (data_dir e) true w1) as [[[]|x] w2]; [|reflexivity].
  unfold mbind at 1, M_bind at 1.
  destruct (pq.write_table e sales_table (output_file e) "snappy" w2) as [[[]|x] w3]; [|reflexivity].
  do 4 (unfold mbind at 1, M_bind at 1, print at 1).
  unfold mbind at 1, M_bind at 1. rewrite region_count_apac.
  unfold mbind at 1, M_bind at 1, print at 1.
  unfold mbind at 1, M_bind at 1. rewrite region_count_emea.
  unfold mbind at 1, M_bind at 1, print at 1.
  unfold mbind at 1, M_bind at 1. rewrite region_count_amer.
  unfold mbind at 1, M_bind at 1, print at 1.
  unfold mret, M_ret, with_stdout, report. cbn [map fs stdout stderr log].
  rewrite <- !app_assoc. reflexivity.
Qed.


(** ** Successful and failed calls *)

Lemma generate_success e w p :
  fst (generate_sample_data e w) = Ok p ->
  p = output_file e /\
  (forall s, env_fault e s = None) /\
  snd (generate_sample_data e w) =
  mkWorld (fs_after e (fs w)) (stdout w ++ map (fun s => s ++ nl) (report e))
    (stderr w) (log w ++ success_log e).
Proof.
  rewrite generate_steps. cbv zeta.
  destruct (env_fault e StepAssemble) eqn:H1; [discriminate|].
  destruct (env_fault e StepFrame) eqn:H2; [discriminate|].
  destruct (env_fault e StepConvert) eqn:H3; [discriminate|].
  destruct (mkdir_cases e (data_dir e) (with_log w [EvCall "generate_sample_data"]))
    as [[x ->]|[H4 ->]]; [discriminate|].
  match goal with |- context [pq.write_table ?e ?t ?p ?c ?w] =>
    destruct (write_cases e t p c w) as [(x & m & -> & _)|[H5 ->]] end; [discriminate|].
  cbn [fst snd]. intros [= <-].
  split; [reflexivity|]. split.
  - intros []; assumption.
  - unfold with_stdout, with_fs, with_log, fs_after, success_log.
    cbn [fs stdout stderr log]. rewrite <- !app_assoc. reflexivity.
Qed.

Lemma generate_failure e w x :
  fst (generate_sample_data e w) = Raise x ->
  let w' := snd (generate_sample_data e w) in
  stdout w' = stdout w /\ stderr w' = stderr w /\
  (exists n, log w' = (log w ++ firstn n (success_log e))%list) /\
  (fs w' = fs w \/ fs w' = ensure_dir (fs w) (data_dir e) \/
   exists k, env_fault e StepWrite = Some x /\ env_partial e = Some k /\
     fs w' = <[Pathlib.str (output_file e) := File (firstn k (env_writer e sales_table "snappy"))]>
               (ensure_dir (fs w) (data_dir e))).
Proof.
  rewrite generate_steps. cbv zeta.
  destruct (env_fault e StepAssemble) eqn:H1;
    [intros _; cbn; repeat split; auto; exists 1%nat; reflexivity|].
  destruct (env_fault e StepFrame) eqn:H2;
    [intros _; cbn; repeat split; auto; exists 1%nat; reflexivity|].
  destruct (env_fault e StepConvert) eqn:H3;
    [intros _; cbn; repeat split; auto; exists 1%nat; reflexivity|].
  destruct (mkdir_cases e (data_dir e) (with_log w [EvCall "generate_sample_data"]))
    as [[y ->]|[H4 ->]].
  { intros _; cbn. repeat split; auto. exists 2%nat.
    rewrite <- app_assoc. reflexivity. }
  match goal with |- context [pq.write_table ?e ?t ?p ?c ?w] =>
    destruct (write_cases e t p c w) as [(y & m & -> & Hm)|[H5 ->]] end;
    [|discriminate].
  cbn [fst snd]. intros [= ->]. cbn [fs stdout stderr log with_fs with_log] in *.
  split; [reflexivity|]. split; [reflexivity|]. split.
  - exists 3%nat. rewrite <- !app_assoc. reflexivity.
  - destruct Hm as [->|(k & Hx & Hk & ->)]; [auto|].
    right; right. exists k. auto.
Qed.

(** ** The region counts *)

(** C1, as the specification words it: the literal list would hold 11
    APAC, 5 EMEA and 4 AMER rows.  It does not: counting the list gives
    other numbers. *)
Lemma region_counts_not_11_5_4 :
  ~ (region_rows "APAC" = 11 /\ region_rows "EMEA" = 5 /\ region_rows "AMER" = 4).
Proof. intros (H & _). vm_compute in H. discriminate H. Qed.

(** C1, amended: the literal [sales_region] list holds 8 rows with value
    APAC, 6 with EMEA and 6 with AMER, and the last three lines a
    successful call prints carry exactly these counts, obtained by
    counting the assembled data. *)
Theorem region_counts_printed e fs0 p :
  fst (generate_sample_data e (init_world fs0)) = Ok p ->
  region_rows "APAC" = 8 /\ region_rows "EMEA" = 6 /\ region_rows "AMER" = 6 /\
  exists pre,
    stdout (snd (generate_sample_data e (init_world fs0))) =
    (pre ++ [ ("  APAC records: " ++ PyInt.str (region_rows "APAC") ++ nl)%string;
              ("  EMEA records: " ++ PyInt.str (region_rows "EMEA") ++ nl)%string;
              ("  AMER records: " ++ PyInt.str (region_rows "AMER") ++ nl)%string ])%list.
Proof.
  intros H. apply generate_success in H as (_ & _ & ->).
  destruct region_rows_values as (Ha & He & Hm).
  rewrite Ha, He, Hm. repeat (split; [reflexivity|]).
  exists (map (fun s => s ++ nl) (firstn 4 (report e))). reflexivity.
Qed.

Lemma region_counts_printed_witness :
  fst (generate_sample_data repo_env (init_world repo_fs)) = Ok (output_file repo_env) /\
  exists pre,
    stdout (snd (generate_sample_data repo_env (init_world repo_fs))) =
    (pre ++ [ ("  APAC records: " ++ PyInt.str (region_rows "APAC") ++ nl)%string;
              ("  EMEA records: " ++ PyInt.str (region_rows "EMEA") ++ nl)%string;
              ("  AMER records: " ++ PyInt.str (region_rows "AMER") ++ nl)%string ])%list.
Proof.
  split; [vm_compute; reflexivity|].
  apply (region_counts_printed repo_env repo_fs (output_file repo_env)).
  vm_compute; reflexivity.
Defined.

(** ** The table *)

Ltac by_decision := apply (bool_decide_unpack _); vm_compute; exact I.

(** C3: on every successful call the table handed to the Parquet writer has
    exactly 20 rows and exactly 7 columns, named customer_id, customer_name,
    customer_email, ssn, sales_region, sales_amount, sale_date in that
    order; every column is typed string except sales_amount, which is a
    double, and the values fit these types; all seven literal sequences
    have length 20. *)
Theorem table_shape e fs0 p :
  fst (generate_sample_data e (init_world fs0)) = Ok p ->
  exists t d,
    log (snd (generate_sample_data e (init_world fs0))) =
      [EvCall "generate_sample_data"; EvMkdir d; EvWrite (Pathlib.str p) t "snappy"] /\
    num_rows t = 20%nat /\
    num_columns t = 7%nat /\
    column_names t =
      [ "customer_id"; "customer_name"; "customer_email"; "ssn";
        "sales_region"; "sales_amount"; "sale_date" ] /\
    map f_type (schema t) =
      [ arrow_string; arrow_string; arrow_string; arrow_string;
        arrow_string; arrow_double; arrow_string ] /\
    Forall (fun c => length c = 20%nat) (columns t) /\
    Forall2 (fun f c => forallb (has_type (f_type f)) c = true) (schema t) (columns t) /\
    map (fun kv => length (snd kv)) data = repeat 20%nat 7.
Proof.
  intros H. apply generate_success in H as (-> & _ & ->).
  exists sales_table, (Pathlib.str (data_dir e)).
  split; [reflexivity|].
  split; [reflexivity|].
  split; [vm_compute; reflexivity|].
  split; [reflexivity|].
  split; [reflexivity|].
  split; [by_decision|].
  split; [|vm_compute; reflexivity].
  unfold sales_table, data; cbn [schema columns map snd].
  repeat (constructor; [vm_compute; reflexivity|]). constructor.
Qed.

Lemma table_shape_witness :
  fst (generate_sample_data repo_env (init_world repo_fs)) = Ok (output_file repo_env) /\
  exists t d,
    log (snd (generate_sample_data repo_env (init_world repo_fs))) =
      [EvCall "generate_sample_data"; EvMkdir d;
       EvWrite (Pathlib.str (output_file repo_env)) t "snappy"] /\
    num_rows t = 20%nat /\ num_columns t = 7%nat.
Proof.
  split; [vm_compute; reflexivity|].
  destruct (table_shape repo_env repo_fs (output_file repo_env)) as (t & d & H1 & H2 & H3 & _).
  - vm_compute; reflexivity.
  - exists t, d. auto.
Defined.

(** ** The customer identifiers *)

(** Zero-padded formatting to four places, on the whole range it pads:
    four digits that read back as the number. *)
Lemma format_04d_reads_back i :
  0 <= i < 10000 ->
  String.length (PyInt.format_0d 4 i) = 4%nat /\
  PyStr.all_digits (PyInt.format_0d 4 i) = true /\
  PyInt.parse (PyInt.format_0d 4 i) = Some i.
Proof.
  intros Hi.
  assert (Hall : forallb (fun k =>
            let s := PyInt.format_0d 4 k in
            Nat.eqb (String.length s) 4 && PyStr.all_digits s &&
            match PyInt.parse s with Some j => j =? k | None => false end)
            (PyInt.range 0 10000) = true) by (vm_compute; reflexivity).
  rewrite forallb_forall in Hall.
  assert (Hin : In i (PyInt.range 0 10000)).
  { unfold PyInt.range. apply in_map_iff. exists (Z.to_nat i).
    split; [lia|]. apply in_seq. lia. }
  apply Hall in Hin. cbv zeta in Hin.
  apply andb_prop in Hin as [Hin Hp]. apply andb_prop in Hin as [Hl Hd].
  apply Nat.eqb_eq in Hl.
  destruct (PyInt.parse (PyInt.format_0d 4 i)) as [j|]; [|discriminate].
  apply Z.eqb_eq in Hp. subst j. auto.
Qed.

Lemma format_04d_injective i j :
  0 <= i < 10000 -> 0 <= j < 10000 ->
  PyInt.format_0d 4 i = PyInt.format_0d 4 j -> i = j.
Proof.
  intros Hi Hj Heq.
  destruct (format_04d_reads_back i Hi) as (_ & _ & Pi).
  destruct (format_04d_reads_back j Hj) as (_ & _ & Pj).
  rewrite Heq in Pi. congruence.
Qed.

Lemma customer_ids_generated :
  map (fun i => "CUST" ++ PyInt.format_0d 4 i) (PyInt.range 1 21) = customer_ids.
Proof. vm_compute. reflexivity. Qed.

(** C4: on every successful call the customer_id column of the written
    table is exactly CUST0001, CUST0002, ..., CUST0020: the value of row k
    (from 0) is CUST followed by four digits that read as k + 1, so the
    values are in increasing order of suffix, and they are pairwise
    distinct. *)
Theorem customer_id_column e fs0 p :
  fst (generate_sample_data e (init_world fs0)) = Ok p ->
  exists t d,
    log (snd (generate_sample_data e (init_world fs0))) =
      [EvCall "generate_sample_data"; EvMkdir d; EvWrite (Pathlib.str p) t "snappy"] /\
    table_column t "customer_id" = Some (strs customer_ids) /\
    length customer_ids = 20%nat /\
    NoDup customer_ids /\
    forall k, (k < 20)%nat ->
      exists suffix,
        nth k customer_ids "" = "CUST" ++ suffix /\
        String.length suffix = 4%nat /\
        PyStr.all_digits suffix = true /\
        PyInt.parse suffix = Some (Z.of_nat k + 1).
Proof.
  intros H. apply generate_success in H as (-> & _ & ->).
  exists sales_table, (Pathlib.str (data_dir e)).
  split; [reflexivity|].
  split; [vm_compute; reflexivity|].
  split; [reflexivity|].
  split; [by_decision|].
  intros k Hk.
  assert (Hr : nth k (PyInt.range 1 21) 0 = Z.of_nat k + 1).
  { unfold PyInt.range.
    rewrite (nth_indep _ 0 ((fun j => 1 + Z.of_nat j) 0%nat))
      by (rewrite length_map, length_seq; simpl; lia).
    rewrite (map_nth (fun j => 1 + Z.of_nat j)), seq_nth by (simpl; lia). lia. }
  exists (PyInt.format_0d 4 (Z.of_nat k + 1)).
  split; [|apply format_04d_reads_back; lia].
  rewrite <- Hr, <- customer_ids_generated.
  rewrite (nth_indep _ "" ("CUST" ++ PyInt.format_0d 4 0))
    by (rewrite customer_ids_generated; simpl; lia).
  apply (map_nth (fun i => "CUST" ++ PyInt.format_0d 4 i)).
Qed.

Lemma customer_id_column_witness :
  fst (generate_sample_data repo_env (init_world repo_fs)) = Ok (output_file repo_env) /\
  exists t d,
    log (snd (generate_sample_data repo_env (init_world repo_fs))) =
      [EvCall "generate_sample_data"; EvMkdir d;
       EvWrite (Pathlib.str (output_file repo_env)) t "snappy"] /\
    table_column t "customer_id" = Some (strs customer_ids).
Proof.
  split; [vm_compute; reflexivity|].
  destruct (customer_id_column repo_env repo_fs (output_file repo_env)) as (t & d & H1 & H2 & _).
  - vm_compute; reflexivity.
  - exists t, d. auto.
Defined.

(** ** The output path *)

Lemma truediv_name a ps name :
  Pathlib.of_string name = Pathlib.mkPath "" [name] ->
  Pathlib.mkPath a ps // name = Pathlib.mkPath a (ps ++ [name]).
Proof. intros H. unfold Pathlib.truediv. rewrite H. reflexivity. Qed.

Lemma parent_snoc a ps c :
  Pathlib.parent (Pathlib.mkPath a (ps ++ [c])) = Pathlib.mkPath a ps.
Proof.
  unfold Pathlib.parent. cbn [Pathlib.parts Pathlib.anchor].
  destruct (ps ++ [c])%list eqn:E.
  - destruct ps; discriminate.
  - rewrite <- E, removelast_last. reflexivity.
Qed.


(** Run by its bare name from its own directory (a relative [__file__]
    without a directory part), the script has no lexical grandparent:
    [Path('.').parent] is [Path('.')], and the file goes to [data] under
    the current directory. *)
Example output_file_bare_name :
  Pathlib.str (output_file (quiet_env "generate_sample_data.py" magic_writer)) =
  "data/sales_sample.parquet".
Proof. vm_compute. reflexivity. Qed.



(** ** The e-mail addresses and the dates *)

(** C9: on every successful call the customer_email column of the written
    table holds 20 values, each ending with [@example.com], and pairwise
    distinct. *)
Theorem customer_email_column e fs0 p :
  fst (generate_sample_data e (init_world fs0)) = Ok p ->
  exists t d,
    log (snd (generate_sample_data e (init_world fs0))) =
      [EvCall "generate_sample_data"; EvMkdir d; EvWrite (Pathlib.str p) t "snappy"] /\
    table_column t "customer_email" = Some (strs customer_emails) /\
    length customer_emails = 20%nat /\
    Forall (fun s => PyStr.endswith s "@example.com" = true) customer_emails /\
    NoDup customer_emails.
Proof.
  intros H. apply generate_success in H as (-> & _ & ->).
  exists sales_table, (Pathlib.str (data_dir e)).
  split; [reflexivity|].
  split; [vm_compute; reflexivity|].
  split; [vm_compute; reflexivity|].
  split; by_decision.
Qed.

Lemma customer_email_column_witness :
  fst (generate_sample_data repo_env (init_world repo_fs)) = Ok (output_file repo_env) /\
  exists t d,
    log (snd (generate_sample_data repo_env (init_world repo_fs))) =
      [EvCall "generate_sample_data"; EvMkdir d;
       EvWrite (Pathlib.str (output_file repo_env)) t "snappy"] /\
    table_column t "customer_email" = Some (strs customer_emails).
Proof.
  split; [vm_compute; reflexivity|].
  destruct (customer_email_column repo_env repo_fs (output_file repo_env))
    as (t & d & H1 & H2 & _).
  - vm_compute; reflexivity.
  - exists t, d. auto.
Defined.

Lemma increasing_sorted {A} (lt : A -> A -> bool) l :
  increasing lt l = true -> StronglySorted (fun a b => lt a b = true) l.
Proof.
  induction l as [|x tl IH]; cbn [increasing]; intros H.
  - constructor.
  - apply andb_prop in H as [Hx Htl]. constructor.
    + apply IH, Htl.
    + apply List.Forall_forall. intros y Hy.
      exact (proj1 (forallb_forall _ _) Hx y Hy).
Qed.

Lemma sorted_irreflexive_NoDup {A} (R : A -> A -> Prop) l :
  (forall x, ~ R x x) -> StronglySorted R l -> NoDup l.
Proof.
  intros Hirr. induction 1 as [|x tl Hs IH Hx]; constructor; [|exact IH].
  intros Hin. rewrite Forall_forall in Hx. exact (Hirr x (Hx x Hin)).
Qed.

Lemma PyStr_lt_irreflexive s : PyStr.lt s s <> true.
Proof.
  unfold PyStr.lt, String.ltb.
  replace (String.compare s s) with Eq; [discriminate|].
  symmetry. induction s as [|c s IH]; cbn; [reflexivity|].
  unfold Ascii.compare. rewrite N.compare_refl. exact IH.
Qed.

(** C10: on every successful call the sale_date column of the written
    table holds 20 strings that are strictly increasing in row order under
    the lexicographic comparison of strings, and also under the calendar
    order of the dates they spell; hence they are pairwise distinct. *)
Theorem sale_date_column e fs0 p :
  fst (generate_sample_data e (init_world fs0)) = Ok p ->
  exists t d,
    log (snd (generate_sample_data e (init_world fs0))) =
      [EvCall "generate_sample_data"; EvMkdir d; EvWrite (Pathlib.str p) t "snappy"] /\
    table_column t "sale_date" = Some (strs sale_dates) /\
    length sale_dates = 20%nat /\
    StronglySorted (fun a b => PyStr.lt a b = true) sale_dates /\
    StronglySorted (fun a b => chrono_lt a b = true) sale_dates /\
    NoDup sale_dates.
Proof.
  intros H. apply generate_success in H as (-> & _ & ->).
  exists sales_table, (Pathlib.str (data_dir e)).
  split; [reflexivity|].
  split; [vm_compute; reflexivity|].
  split; [vm_compute; reflexivity|].
  assert (Hlex : StronglySorted (fun a b => PyStr.lt a b = true) sale_dates)
    by (apply increasing_sorted; vm_compute; reflexivity).
  split; [exact Hlex|].
  split; [apply increasing_sorted; vm_compute; reflexivity|].
  apply (sorted_irreflexive_NoDup _ _ PyStr_lt_irreflexive Hlex).
Qed.

Lemma sale_date_column_witness :
  fst (generate_sample_data repo_env (init_world repo_fs)) = Ok (output_file repo_env) /\
  exists t d,
    log (snd (generate_sample_data repo_env (init_world repo_fs))) =
      [EvCall "generate_sample_data"; EvMkdir d;
       EvWrite (Pathlib.str (output_file repo_env)) t "snappy"] /\
    table_column t "sale_date" = Some (strs sale_dates).
Proof.
  split; [vm_compute; reflexivity|].
  destruct (sale_date_column repo_env repo_fs (output_file repo_env))
    as (t & d & H1 & H2 & _).
  - vm_compute; reflexivity.
  - exists t, d. auto.
Defined.

(** ** Running the script *)

Lemma import_error_class x :
  isinstance x ImportError = true ->
  exists c msg, x = Raised c msg /\ c <> KeyboardInterrupt.
Proof.
  destruct x as [c msg|n]; [|discriminate].
  intros H. exists c, msg. split; [reflexivity|].
  intros ->. discriminate H.
Qed.

(** A library that cannot be imported stops the module at its import
    statement, before the [try] block: nothing is printed on standard
    output, nothing is attempted, the interpreter reports the exception. *)
Lemma import_failure_uncaught e fs0 m x :
  In m ["pandas"; "pyarrow"; "pyarrow.parquet"] ->
  env_import e m = Some x ->
  (forall m' x', env_import e m' = Some x' -> isinstance x' ImportError = true) ->
  exit_status (run e fs0) = 1 /\
  stdout (final (run e fs0)) = [] /\
  stderr (final (run e fs0)) <> [] /\
  log (final (run e fs0)) = [] /\
  fs (final (run e fs0)) = fs0.
Proof.
  intros Hm Hx Hall.
  assert (Hfail : exists y, script e (init_world fs0) = (Raise y, init_world fs0) /\
                            isinstance y ImportError = true).
  { unfold script, import_, mbind, M_bind, mret, M_ret.
    destruct (env_import e "pandas") as [y|] eqn:E1; [exists y; eauto|].
    destruct (env_import e "pyarrow") as [y|] eqn:E2; [exists y; eauto|].
    destruct (env_import e "pyarrow.parquet") as [y|] eqn:E3; [exists y; eauto|].
    simpl in Hm. destruct Hm as [<-|[<-|[<-|[]]]]; congruence. }
  destruct Hfail as (y & Hs & Hy).
  destruct (import_error_class y Hy) as (c & msg & -> & Hc).
  unfold run. rewrite Hs. cbn [exit_status final fs stdout stderr log init_world].
  rewrite bool_decide_eq_false_2 by exact Hc.
  split; [reflexivity|]. split; [reflexivity|]. split; [|split; reflexivity].
  intros Habs. apply (f_equal (@length string)) in Habs. discriminate Habs.
Qed.

(** C2, at a run without pandas: the run ends with status 1 and no
    generation step is attempted, but the installation instructions are
    not printed; standard output stays empty and the interpreter writes a
    traceback to standard error. *)
Theorem missing_pandas_run :
  exit_status (run no_pandas_env repo_fs) = 1 /\
  stdout (final (run no_pandas_env repo_fs)) = [] /\
  stderr (final (run no_pandas_env repo_fs)) =
    [ "Traceback (most recent call last):" ++ nl;
      "ModuleNotFoundError: No module named 'pandas'" ++ nl ]%string /\
  log (final (run no_pandas_env repo_fs)) = [] /\
  fs (final (run no_pandas_env repo_fs)) = repo_fs.
Proof.
  repeat split; vm_compute; reflexivity.
Qed.



(** ** The main block *)

(** The file is run as the main program and every import loads. *)
Section MainProgram.

Variable e : env.
Variable fs0 : gmap string node.
Hypothesis Hname : env_name e = "__main__".
Hypothesis Himports : forall m, env_import e m = None.

Lemma script_main w :
  script e w = main_block e w.
Proof.
  unfold script, import_, mbind, M_bind, mret, M_ret.
  rewrite !Himports, Hname. reflexivity.
Qed.

Lemma run_success p :
  fst (generate_sample_data e (init_world fs0)) = Ok p ->
  run e fs0 = mkOutcome 0 (snd (generate_sample_data e (init_world fs0))).
Proof.
  intros Hg. unfold run. rewrite script_main.
  unfold main_block, try_except, mbind, M_bind.
  destruct (generate_sample_data e (init_world fs0)) as [[q|y] w']; [|discriminate].
  reflexivity.
Qed.

(** The handler the main block holds for [ImportError] does print the
    instructions, for an [ImportError] raised inside the call. *)
Lemma import_error_inside_call x :
  fst (generate_sample_data e (init_world fs0)) = Raise x ->
  isinstance x ImportError = true ->
  exit_status (run e fs0) = 1 /\
  stdout (final (run e fs0)) =
    [ "Error: Required Python packages not installed." ++ nl;
      "Please install: pip install pandas pyarrow" ++ nl ]%string.
Proof.
  intros Hg Hx.
  pose proof (generate_failure e (init_world fs0) x Hg) as (Hout & _).
  destruct (generate_sample_data e (init_world fs0)) as [[q|y] w'] eqn:G;
    cbn [fst snd] in *; [discriminate|].
  injection Hg as ->.
  unfold run. rewrite script_main.
  unfold main_block, try_except, mbind, M_bind.
  rewrite G. cbn [dispatch]. rewrite Hx.
  unfold print, sys_exit, raise.
  cbn [exit_status final stdout]. rewrite Hout. split; reflexivity.
Qed.


(** C7, amended: on every successful run the program exits with 0 and the
    console output is exactly these eight lines, in order: the success
    banner, the file path, the total record count, a blank line, the
    heading [Data summary:], and three region-count lines labelled APAC,
    EMEA and AMER. *)
Theorem report_shape p :
  fst (generate_sample_data e (init_world fs0)) = Ok p ->
  exit_status (run e fs0) = 0 /\
  console (final (run e fs0)) =
    unlines [ "Sample data generated successfully!";
              "File: " ++ Pathlib.str p;
              "Records: 20";
              "";
              "Data summary:";
              "  APAC records: 8";
              "  EMEA records: 6";
              "  AMER records: 6" ].
Proof.
  intros Hg. rewrite (run_success p Hg).
  apply generate_success in Hg as (-> & _ & ->).
  split; reflexivity.
Qed.

End MainProgram.



(** C7, as the specification words it, fails at the run in [/repo]: the
    console shows eight lines, not the seven listed, and the line after
    the blank one is the heading [Data summary:], not a region count. *)
Lemma report_is_not_seven_lines :
  exit_status (run repo_env repo_fs) = 0 /\
  length (PyStr.splitlines (console (final (run repo_env repo_fs)))) = 8%nat /\
  length (PyStr.splitlines (console (final (run repo_env repo_fs)))) <> 7%nat /\
  nth 3 (PyStr.splitlines (console (final (run repo_env repo_fs)))) "?" = "" /\
  nth 4 (PyStr.splitlines (console (final (run repo_env repo_fs)))) "?" = "Data summary:".
Proof.
  split; [vm_compute; reflexivity|].
  split; [vm_compute; reflexivity|].
  split; [vm_compute; discriminate|].
  split; vm_compute; reflexivity.
Qed.

Lemma report_shape_witness :
  exit_status (run repo_env repo_fs) = 0 /\
  PyStr.splitlines (console (final (run repo_env repo_fs))) =
    [ "Sample data generated successfully!";
      "File: /repo/data/sales_sample.parquet";
      "Records: 20";
      "";
      "Data summary:";
      "  APAC records: 8";
      "  EMEA records: 6";
      "  AMER records: 6" ].
Proof.
  destruct (report_shape repo_env repo_fs eq_refl (fun _ => eq_refl) (output_file repo_env))
    as [H0 Hc];
    try (vm_compute; reflexivity).
  split; [exact H0|]. rewrite Hc. vm_compute. reflexivity.
Defined.

(** ** When the call succeeds, and calling again *)

Lemma string_app_assoc (a b c : string) : (a ++ b) ++ c = a ++ b ++ c.
Proof.
  induction a as [|x a IH]; [reflexivity|].
  change (String x ((a ++ b) ++ c) = String x (a ++ b ++ c)).
  f_equal. exact IH.
Qed.

Lemma string_app_length (a b : string) :
  String.length (a ++ b) = (String.length a + String.length b)%nat.
Proof.
  induction a as [|x a IH]; [reflexivity|].
  change (S (String.length (a ++ b)) = S (String.length a + String.length b)).
  f_equal. exact IH.
Qed.

Lemma join_snoc sep l x :
  l <> [] -> PyStr.join sep (l ++ [x]) = PyStr.join sep l ++ sep ++ x.
Proof.
  induction l as [|y [|z tl] IH]; intros Hl; [congruence|reflexivity|].
  change (PyStr.join sep ((y :: z :: tl) ++ [x]))
    with (y ++ sep ++ PyStr.join sep ((z :: tl) ++ [x])).
  rewrite IH by discriminate.
  change (PyStr.join sep (y :: z :: tl)) with (y ++ sep ++ PyStr.join sep (z :: tl)).
  rewrite !string_app_assoc. reflexivity.
Qed.

Lemma str_nonempty_parts a ps :
  ps <> [] -> Pathlib.str (Pathlib.mkPath a ps) = a ++ PyStr.join "/" ps.
Proof.
  intros Hps. unfold Pathlib.str. cbn [Pathlib.anchor Pathlib.parts].
  destruct a; [|reflexivity]. destruct ps; [congruence|reflexivity].
Qed.

Lemma truediv_parts p name :
  Pathlib.of_string name = Pathlib.mkPath "" [name] ->
  p // name = Pathlib.mkPath (Pathlib.anchor p) (Pathlib.parts p ++ [name]).
Proof. destruct p as [a ps]. apply truediv_name. Qed.

Lemma snoc_not_nil {A} (l : list A) x : (l ++ [x])%list <> [].
Proof. destruct l; discriminate. Qed.

(** Below a path with components, [p / name] is a longer string. *)
Lemma str_truediv p name :
  Pathlib.of_string name = Pathlib.mkPath "" [name] ->
  Pathlib.parts p <> [] ->
  Pathlib.str (p // name) = Pathlib.str p ++ "/" ++ name.
Proof.
  intros Hn Hp. rewrite (truediv_parts p name Hn). destruct p as [a ps].
  cbn [Pathlib.anchor Pathlib.parts] in *.
  rewrite !str_nonempty_parts by (assumption || apply snoc_not_nil).
  rewrite join_snoc by assumption. rewrite string_app_assoc. reflexivity.
Qed.

Lemma data_dir_parts e : Pathlib.parts (data_dir e) <> [].
Proof.
  unfold data_dir. rewrite truediv_parts by reflexivity. apply snoc_not_nil.
Qed.

Lemma output_file_parent e : Pathlib.parent (output_file e) = data_dir e.
Proof.
  unfold output_file. rewrite truediv_parts by reflexivity.
  rewrite parent_snoc. destruct (data_dir e); reflexivity.
Qed.

Lemma data_dir_parent e : Pathlib.parent (data_dir e) = project_root e.
Proof.
  unfold data_dir. rewrite truediv_parts by reflexivity.
  rewrite parent_snoc. destruct (project_root e); reflexivity.
Qed.

Lemma output_file_parts_nonempty e : Pathlib.parts (output_file e) <> [].
Proof.
  unfold output_file. rewrite truediv_parts by reflexivity. apply snoc_not_nil.
Qed.

Lemma output_file_not_data_dir e :
  Pathlib.str (output_file e) <> Pathlib.str (data_dir e).
Proof.
  unfold output_file. rewrite str_truediv by (reflexivity || apply data_dir_parts).
  intros H. apply (f_equal String.length) in H.
  rewrite string_app_length in H.
  change (String.length ("/" ++ "sales_sample.parquet")) with 21%nat in H. lia.
Qed.

Lemma is_dir_lookup m p :
  Pathlib.parts p <> [] ->
  is_dir m p = match m !! Pathlib.str p with Some Dir => true | _ => false end.
Proof. intros Hp. unfold is_dir. destruct (Pathlib.parts p); [congruence|reflexivity]. Qed.

(** Once ensured, the directory is there. *)
Lemma ensure_dir_is_dir m p : is_dir (ensure_dir m p) p = true.
Proof.
  unfold ensure_dir. destruct (is_dir m p) eqn:E; [exact E|].
  unfold is_dir. destruct (Pathlib.parts p); [reflexivity|].
  rewrite lookup_insert_eq. reflexivity.
Qed.

Lemma mkdir_succeeds e p w :
  env_fault e StepMkdir = None ->
  is_dir (fs w) p = true \/
    (fs w !! Pathlib.str p = None /\ is_dir (fs w) (Pathlib.parent p) = true) ->
  mkdir e p true w =
  (Ok tt, with_fs (with_log w [EvMkdir (Pathlib.str p)]) (ensure_dir (fs w) p)).
Proof.
  intros Hf Hp.
  unfold mkdir, fault, emit, get_fs, set_node, mbind, M_bind, mret, M_ret, raise,
    with_log, with_fs, ensure_dir.
  rewrite Hf. cbn [fs stdout stderr log andb].
  destruct Hp as [Hd|[Hn Hd]].
  - rewrite Hd. destruct (fs w !! Pathlib.str p); reflexivity.
  - rewrite Hn, Hd. destruct (is_dir (fs w) p); reflexivity.
Qed.

Lemma write_succeeds e t p c w :
  env_fault e StepWrite = None ->
  is_dir (fs w) p = false -> is_dir (fs w) (Pathlib.parent p) = true ->
  pq.write_table e t p c w =
  (Ok tt, with_fs (with_log w [EvWrite (Pathlib.str p) t c])
            (<[Pathlib.str p := File (env_writer e t c)]> (fs w))).
Proof.
  intros Hf Hp Hd.
  unfold pq.write_table, emit, get_fs, set_node, mbind, M_bind, with_log, with_fs.
  rewrite Hf. cbn [fs stdout stderr log]. rewrite Hp, Hd. reflexivity.
Qed.

(** The call returns the path whenever no step fails on the runtime's
    account, the data directory is there or can be made under the project
    root, and the output path is not a directory. *)
Lemma generate_succeeds e w :
  (forall s, env_fault e s = None) ->
  is_dir (fs w) (data_dir e) = true \/
    (fs w !! Pathlib.str (data_dir e) = None /\ is_dir (fs w) (project_root e) = true) ->
  is_dir (fs w) (output_file e) = false ->
  fst (generate_sample_data e w) = Ok (output_file e).
Proof.
  intros Hf Hd Ho. rewrite generate_steps. cbv zeta. rewrite !Hf.
  rewrite mkdir_succeeds; [|apply Hf|rewrite data_dir_parent; exact Hd].
  rewrite write_succeeds; [reflexivity|apply Hf| |].
  - cbn [fs with_fs with_log]. unfold ensure_dir.
    destruct (is_dir (fs w) (data_dir e)); [exact Ho|].
    rewrite is_dir_lookup in * by apply output_file_parts_nonempty.
    rewrite lookup_insert_ne by (intros H; symmetry in H; revert H; apply output_file_not_data_dir).
    exact Ho.
  - cbn [fs with_fs with_log]. rewrite output_file_parent. apply ensure_dir_is_dir.
Qed.

(** After a successful call the data directory exists and the output path
    holds a file. *)
Lemma fs_after_state e m :
  is_dir (fs_after e m) (data_dir e) = true /\
  is_dir (fs_after e m) (output_file e) = false.
Proof.
  unfold fs_after. split.
  - pose proof (ensure_dir_is_dir m (data_dir e)) as H.
    rewrite is_dir_lookup in * by apply data_dir_parts.
    rewrite lookup_insert_ne by apply output_file_not_data_dir. exact H.
  - rewrite is_dir_lookup by apply output_file_parts_nonempty.
    rewrite lookup_insert_eq. reflexivity.
Qed.

(** Calling again after a success succeeds and changes nothing on disk. *)
Lemma rerun_same e fs0 p :
  fst (generate_sample_data e (init_world fs0)) = Ok p ->
  let fs1 := fs (snd (generate_sample_data e (init_world fs0))) in
  fst (generate_sample_data e (init_world fs1)) = Ok p /\
  fs (snd (generate_sample_data e (init_world fs1))) = fs1.
Proof.
  intros H. apply generate_success in H as (-> & Hf & ->).
  cbv zeta. cbn [fs init_world].
  destruct (fs_after_state e fs0) as [Hd Ho].
  assert (Hok : fst (generate_sample_data e (init_world (fs_after e fs0))) = Ok (output_file e)).
  { apply generate_succeeds; [exact Hf|left; exact Hd|exact Ho]. }
  split; [exact Hok|].
  apply generate_success in Hok as (_ & _ & ->). cbn [fs init_world].
  unfold fs_after at 1, ensure_dir at 1. rewrite Hd. unfold fs_after. apply insert_insert_eq.
Qed.

(** ** Determinism *)

(** C8: the call takes nothing but its own location from the environment:
    any two successful calls under the same Parquet writer, whatever their
    locations and whatever the file systems held before (a previous output
    included), leave byte-for-byte the same content in their output files,
    the writer's bytes for the one fixed table under snappy; and calling
    again where a call succeeded succeeds again, overwriting the file with
    the same bytes: the file system stays as the first call left it. *)
Theorem output_deterministic e1 e2 fs1 fs2 p1 p2 :
  env_writer e1 = env_writer e2 ->
  fst (generate_sample_data e1 (init_world fs1)) = Ok p1 ->
  fst (generate_sample_data e2 (init_world fs2)) = Ok p2 ->
  (exists bytes,
     fs (snd (generate_sample_data e1 (init_world fs1))) !! Pathlib.str p1 = Some (File bytes) /\
     fs (snd (generate_sample_data e2 (init_world fs2))) !! Pathlib.str p2 = Some (File bytes) /\
     bytes = env_writer e1 sales_table "snappy") /\
  (let fs1' := fs (snd (generate_sample_data e1 (init_world fs1))) in
   fst (generate_sample_data e1 (init_world fs1')) = Ok p1 /\
   fs (snd (generate_sample_data e1 (init_world fs1'))) = fs1').
Proof.
  intros Hw H1 H2. split; [|exact (rerun_same e1 fs1 p1 H1)].
  apply generate_success in H1 as (-> & _ & ->).
  apply generate_success in H2 as (-> & _ & ->).
  exists (env_writer e1 sales_table "snappy"). cbn [fs]. unfold fs_after.
  rewrite <- Hw, !lookup_insert_eq. auto.
Qed.

Lemma output_deterministic_witness :
  let fs1 := fs (snd (generate_sample_data repo_env (init_world repo_fs))) in
  fst (generate_sample_data repo_env (init_world repo_fs)) = Ok (output_file repo_env) /\
  fst (generate_sample_data repo_env (init_world fs1)) = Ok (output_file repo_env) /\
  exists bytes,
    fs1 !! "/repo/data/sales_sample.parquet" = Some (File bytes) /\
    fs (snd (generate_sample_data repo_env (init_world fs1))) !! "/repo/data/sales_sample.parquet"
      = Some (File bytes) /\
    length bytes = 24%nat.
Proof.
  cbv zeta.
  split; [vm_compute; reflexivity|].
  split; [vm_compute; reflexivity|].
  destruct (output_deterministic repo_env repo_env repo_fs
              (fs (snd (generate_sample_data repo_env (init_world repo_fs))))
              (output_file repo_env) (output_file repo_env))
    as ((bytes & H1 & H2 & ->) & _); try (vm_compute; reflexivity).
  exists (env_writer repo_env sales_table "snappy").
  split; [exact H1|]. split; [exact H2|]. vm_compute. reflexivity.
Defined.

(** * Further properties of the script *)

(** ** Every run, case by case *)

Lemma script_cases e w :
  (exists m x, In m imported_modules /\ env_import e m = Some x /\
               script e w = (Raise x, w)) \/
  ((forall m, In m imported_modules -> env_import e m = None) /\
   script e w = if String.eqb (env_name e) "__main__" then main_block e w else (Ok tt, w)).
Proof.
  unfold script, import_, imported_modules, mbind, M_bind, mret, M_ret, raise.
  destruct (env_import e "pandas") as [x|] eqn:E1;
    [left; exists "pandas", x; cbn; auto 10|].
  destruct (env_import e "pyarrow") as [x|] eqn:E2;
    [left; exists "pyarrow", x; cbn; auto 10|].
  destruct (env_import e "pyarrow.parquet") as [x|] eqn:E3;
    [left; exists "pyarrow.parquet", x; cbn; auto 10|].
  destruct (env_import e "pathlib") as [x|] eqn:E4;
    [left; exists "pathlib", x; cbn; auto 10|].
  destruct (env_import e "sys") as [x|] eqn:E5;
    [left; exists "sys", x; cbn; auto 10|].
  right. split.
  - intros m Hm. cbn in Hm. destruct Hm as [<-|[<-|[<-|[<-|[<-|[]]]]]]; assumption.
  - destruct (String.eqb (env_name e) "__main__"); reflexivity.
Qed.

Lemma main_block_cases e w :
  main_block e w =
  match generate_sample_data e w with
  | (Ok _, w') => (Ok tt, w')
  | (Raise x, w') =>
      if isinstance x ImportError then (Raise (SysExit 1), with_stdout w' (handler_output x))
      else if isinstance x Exception then (Raise (SysExit 1), with_stdout w' (handler_output x))
      else (Raise x, w')
  end.
Proof.
  unfold main_block, try_except. unfold mbind at 1, M_bind at 1.
  destruct (generate_sample_data e w) as [[p|x] w']; [reflexivity|].
  cbn [dispatch]. unfold handler_output.
  destruct (isinstance x ImportError).
  - unfold mbind, M_bind, print, sys_exit, raise, with_stdout.
    cbn [fs stdout stderr log]. rewrite <- app_assoc. reflexivity.
  - destruct (isinstance x Exception); [|reflexivity].
    unfold mbind, M_bind, print, sys_exit, raise, with_stdout. reflexivity.
Qed.

(** A run either never enters the call, and then leaves no trace on
    standard output, in the log or on disk; or it is the main program,
    and then its trace is that of the call followed by what a handler
    prints. *)
Lemma run_cases e fs0 :
  (stdout (final (run e fs0)) = [] /\ log (final (run e fs0)) = [] /\
   fs (final (run e fs0)) = fs0) \/
  (env_name e = "__main__" /\
   (forall m, In m imported_modules -> env_import e m = None) /\
   fs (final (run e fs0)) = fs (snd (generate_sample_data e (init_world fs0))) /\
   log (final (run e fs0)) = log (snd (generate_sample_data e (init_world fs0))) /\
   match fst (generate_sample_data e (init_world fs0)) with
   | Ok _ =>
       exit_status (run e fs0) = 0 /\
       stdout (final (run e fs0)) = stdout (snd (generate_sample_data e (init_world fs0)))
   | Raise x =>
       stdout (final (run e fs0)) = handler_output x /\
       (isinstance x Exception = true -> exit_status (run e fs0) = 1)
   end).
Proof.
  unfold run.
  destruct (script_cases e (init_world fs0)) as [(m & x & _ & _ & ->)|[Hi ->]].
  { left. destruct x; cbn; auto. }
  destruct (String.eqb (env_name e) "__main__") eqn:Hn; [|left; cbn; auto].
  apply String.eqb_eq in Hn. right. split; [exact Hn|]. split; [exact Hi|].
  rewrite main_block_cases.
  pose proof (generate_failure e (init_world fs0)) as Hf.
  destruct (generate_sample_data e (init_world fs0)) as [[p|x] w']; cbn [fst snd] in *.
  { cbn. auto. }
  destruct (Hf x eq_refl) as (Hout & _). cbn [init_world stdout] in Hout.
  unfold handler_output.
  destruct (isinstance x ImportError) eqn:Himp.
  - cbn [exit_status final fs log stdout with_stdout]. rewrite Hout.
    assert (isinstance x Exception = true -> 1 = 1) by reflexivity. auto.
  - destruct (isinstance x Exception) eqn:Hex.
    + cbn [exit_status final fs log stdout with_stdout]. rewrite Hout. auto.
    + destruct x as [c msg|n]; cbn [exit_status final fs log stdout]; rewrite Hout;
        repeat split; discriminate.
Qed.

(** ** When the call returns *)

Lemma mkdir_ok_inv e p w w' :
  mkdir e p true w = (Ok tt, w') ->
  env_fault e StepMkdir = None /\
  (is_dir (fs w) p = true \/
   (fs w !! Pathlib.str p = None /\ is_dir (fs w) (Pathlib.parent p) = true)).
Proof.
  unfold mkdir, fault, emit, get_fs, set_node, mbind, M_bind, mret, M_ret, raise.
  destruct (env_fault e StepMkdir) as [x|]; [discriminate|].
  cbn [fs stdout stderr log andb].
  destruct (is_dir (fs w) p) eqn:Hd; [auto|].
  destruct (fs w !! Pathlib.str p) as [n|] eqn:Hl; [discriminate|].
  destruct (is_dir (fs w) (Pathlib.parent p)) eqn:Hp; [auto|].
  destruct (fs w !! Pathlib.str (Pathlib.parent p)); discriminate.
Qed.

Lemma write_ok_inv e t p c w w' :
  pq.write_table e t p c w = (Ok tt, w') ->
  env_fault e StepWrite = None /\
  is_dir (fs w) p = false /\ is_dir (fs w) (Pathlib.parent p) = true.
Proof.
  unfold pq.write_table, emit, get_fs, set_node, mbind, M_bind, mret, M_ret, raise.
  destruct (env_fault e StepWrite) as [x|].
  { destruct (env_partial e); discriminate. }
  cbn [fs stdout stderr log].
  destruct (is_dir (fs w) p) eqn:Hd; [discriminate|].
  destruct (is_dir (fs w) (Pathlib.parent p)) eqn:Hp; [auto|discriminate].
Qed.

Lemma ensure_dir_output_file e m :
  is_dir (ensure_dir m (data_dir e)) (output_file e) = is_dir m (output_file e).
Proof.
  unfold ensure_dir. destruct (is_dir m (data_dir e)); [reflexivity|].
  rewrite !is_dir_lookup by apply output_file_parts_nonempty.
  rewrite lookup_insert_ne; [reflexivity|].
  intros H. symmetry in H. revert H. apply output_file_not_data_dir.
Qed.

(** X1: the call returns the output path exactly when no step fails on
    the runtime's account, the data directory is there already or is
    absent with the project root a directory (it is made without its
    parents), and the output path is not itself a directory. *)
Theorem call_returns_iff e fs0 :
  fst (generate_sample_data e (init_world fs0)) = Ok (output_file e) <->
  (forall s, env_fault e s = None) /\
  (is_dir fs0 (data_dir e) = true \/
   (fs0 !! Pathlib.str (data_dir e) = None /\ is_dir fs0 (project_root e) = true)) /\
  is_dir fs0 (output_file e) = false.
Proof.
  split.
  - intros H. pose proof (generate_success _ _ _ H) as (_ & Hf & _).
    split; [exact Hf|]. revert H. rewrite generate_steps. cbv zeta. rewrite !Hf.
    destruct (mkdir e (data_dir e) true (with_log (init_world fs0) [EvCall "generate_sample_data"]))
      as [[[]|x] w2] eqn:Hm; [|discriminate].
    pose proof (mkdir_ok_inv _ _ _ _ Hm) as (_ & Hd).
    rewrite mkdir_succeeds in Hm by (apply Hf || exact Hd). injection Hm as <-.
    cbn [fs with_log init_world] in Hd. rewrite data_dir_parent in Hd.
    destruct (pq.write_table e sales_table (output_file e) "snappy" _)
      as [[[]|x] w3] eqn:Hw; [|discriminate].
    pose proof (write_ok_inv _ _ _ _ _ _ Hw) as (_ & Ho & _).
    cbn [fs with_fs with_log init_world] in Ho. rewrite ensure_dir_output_file in Ho.
    intros _. split; assumption.
  - intros (Hf & Hd & Ho). apply generate_succeeds; assumption.
Qed.

Lemma call_returns_iff_witness :
  fst (generate_sample_data repo_env (init_world repo_fs)) = Ok (output_file repo_env) /\
  fst (generate_sample_data repo_env (init_world blocked_fs)) <> Ok (output_file repo_env).
Proof.
  split.
  - apply (call_returns_iff repo_env repo_fs).
    split; [reflexivity|]. split; [|vm_compute; reflexivity].
    right. split; vm_compute; reflexivity.
  - intros H. apply (call_returns_iff repo_env blocked_fs) in H as (_ & Hd & _).
    destruct Hd as [Hd|[Hd _]]; vm_compute in Hd; discriminate Hd.
Defined.

(** X2: after a call that returns, the data directory exists, the output
    path holds a regular file with the writer's bytes, and when the data
    directory was there before, nothing but the output file has changed
    (an existing directory is no error and its other entries stay). *)
Theorem after_success e fs0 p :
  fst (generate_sample_data e (init_world fs0)) = Ok p ->
  is_dir (fs (snd (generate_sample_data e (init_world fs0)))) (data_dir e) = true /\
  fs (snd (generate_sample_data e (init_world fs0))) !! Pathlib.str p =
    Some (File (env_writer e sales_table "snappy")) /\
  (is_dir fs0 (data_dir e) = true ->
   fs (snd (generate_sample_data e (init_world fs0))) =
   <[Pathlib.str p := File (env_writer e sales_table "snappy")]> fs0).
Proof.
  intros H. apply generate_success in H as (-> & _ & ->). cbn [fs init_world].
  destruct (fs_after_state e fs0) as [Hd _].
  split; [exact Hd|]. split.
  - unfold fs_after. apply lookup_insert_eq.
  - intros Hpre. unfold fs_after, ensure_dir. rewrite Hpre. reflexivity.
Qed.

Lemma after_success_witness :
  repo_fs !! "/repo/data" = None /\
  is_dir (fs (snd (generate_sample_data repo_env (init_world repo_fs)))) (data_dir repo_env) = true.
Proof.
  split; [vm_compute; reflexivity|].
  apply (after_success repo_env repo_fs (output_file repo_env)).
  vm_compute; reflexivity.
Defined.

(** ** What a run touches *)

Lemma ensure_dir_lookup_ne m p q :
  q <> Pathlib.str p -> ensure_dir m p !! q = m !! q.
Proof.
  intros Hq. unfold ensure_dir. destruct (is_dir m p); [reflexivity|].
  apply lookup_insert_ne. congruence.
Qed.

(** X3: whatever the environment and the outcome, a run changes nothing
    on disk outside the data directory entry and the output file: every
    other path holds after the run what it held before. *)
Theorem run_touches_only_its_paths e fs0 q :
  q <> Pathlib.str (data_dir e) ->
  q <> Pathlib.str (output_file e) ->
  fs (final (run e fs0)) !! q = fs0 !! q.
Proof.
  intros Hd Ho.
  destruct (run_cases e fs0) as [(_ & _ & ->)|(_ & _ & -> & _ & _)]; [reflexivity|].
  destruct (generate_sample_data e (init_world fs0)) as [[p|x] w'] eqn:G.
  - pose proof (generate_success e (init_world fs0) p) as H. rewrite G in H.
    destruct (H eq_refl) as (_ & _ & ->). cbn [snd fs init_world]. unfold fs_after.
    rewrite lookup_insert_ne by congruence. apply ensure_dir_lookup_ne, Hd.
  - pose proof (generate_failure e (init_world fs0) x) as H. rewrite G in H.
    destruct (H eq_refl) as (_ & _ & _ & Hfs). cbn [snd fs init_world] in *.
    destruct Hfs as [->|[->|(k & _ & _ & ->)]].
    + reflexivity.
    + apply ensure_dir_lookup_ne, Hd.
    + rewrite lookup_insert_ne by congruence. apply ensure_dir_lookup_ne, Hd.
Qed.

Lemma run_touches_only_its_paths_witness :
  fs (final (run interrupted_env repo_fs)) !! "/repo/scripts" = Some Dir /\
  fs (final (run interrupted_env repo_fs)) !! "/repo/data/other.parquet" = None.
Proof.
  split.
  - rewrite (run_touches_only_its_paths interrupted_env repo_fs "/repo/scripts");
      [reflexivity|vm_compute; discriminate|vm_compute; discriminate].
  - rewrite (run_touches_only_its_paths interrupted_env repo_fs "/repo/data/other.parquet");
      [reflexivity|vm_compute; discriminate|vm_compute; discriminate].
Defined.

(** X4: whatever the environment and the outcome, the effects a run
    attempts are a prefix of: enter the call, make the data directory,
    write the table to the output path with snappy.  So the directory is
    ensured before any write, each is attempted at most once, and nothing
    is written anywhere else. *)
Theorem run_log_prefix e fs0 :
  exists n, log (final (run e fs0)) = firstn n (success_log e).
Proof.
  destruct (run_cases e fs0) as [(_ & -> & _)|(_ & _ & _ & -> & _)];
    [exists 0%nat; reflexivity|].
  destruct (generate_sample_data e (init_world fs0)) as [[p|x] w'] eqn:G.
  - pose proof (generate_success e (init_world fs0) p) as H. rewrite G in H.
    destruct (H eq_refl) as (_ & _ & ->). exists 3%nat. reflexivity.
  - pose proof (generate_failure e (init_world fs0) x) as H. rewrite G in H.
    destruct (H eq_refl) as (_ & _ & (n & Hn) & _). exists n. exact Hn.
Qed.





(** ** Failures of the directory step *)

Lemma run_of_main e fs0 :
  env_name e = "__main__" -> (forall m, env_import e m = None) ->
  run e fs0 =
  match main_block e (init_world fs0) with
  | (Ok _, w) => mkOutcome 0 w
  | (Raise (SysExit n), w) => mkOutcome n w
  | (Raise (Raised c m), w) =>
      mkOutcome (if bool_decide (c = KeyboardInterrupt) then 130 else 1)
        (mkWorld (fs w) (stdout w)
           (stderr w ++ ["Traceback (most recent call last):" ++ nl;
                         class_name c ++ ": " ++ m ++ nl])
           (log w))
  end.
Proof.
  intros Hn Hi. unfold run. rewrite (script_main e Hn Hi). reflexivity.
Qed.

Lemma generate_mkdir_raises e w x :
  env_fault e StepAssemble = None -> env_fault e StepFrame = None ->
  env_fault e StepConvert = None ->
  mkdir e (data_dir e) true (with_log w [EvCall "generate_sample_data"]) =
    (Raise x, with_log (with_log w [EvCall "generate_sample_data"])
                [EvMkdir (Pathlib.str (data_dir e))]) ->
  generate_sample_data e w =
  (Raise x, with_log w [EvCall "generate_sample_data"; EvMkdir (Pathlib.str (data_dir e))]).
Proof.
  intros H1 H2 H3 Hm. rewrite generate_steps. cbv zeta. rewrite H1, H2, H3, Hm.
  unfold with_log. cbn [fs stdout stderr log]. rewrite <- app_assoc. reflexivity.
Qed.

(** X6: when a regular file sits where the data directory goes, the
    directory step raises [FileExistsError] although [exist_ok] is set:
    the program prints the labelled message naming that path and exits
    with status 1; no write is attempted and the disk is left as it was. *)
Theorem data_path_blocked e fs0 content :
  env_name e = "__main__" -> (forall m, env_import e m = None) ->
  (forall s, s <> StepWrite -> env_fault e s = None) ->
  fs0 !! Pathlib.str (data_dir e) = Some (File content) ->
  exit_status (run e fs0) = 1 /\
  stdout (final (run e fs0)) =
    [ "Error generating sample data: [Errno 17] File exists: '"
        ++ Pathlib.str (data_dir e) ++ "'" ++ nl ]%string /\
  log (final (run e fs0)) =
    [ EvCall "generate_sample_data"; EvMkdir (Pathlib.str (data_dir e)) ] /\
  fs (final (run e fs0)) = fs0.
Proof.
  intros Hn Hi Hf Hfile.
  assert (G : generate_sample_data e (init_world fs0) =
              (Raise (Raised FileExistsError
                        (errno_msg "[Errno 17] File exists" (data_dir e))),
               with_log (init_world fs0)
                 [EvCall "generate_sample_data"; EvMkdir (Pathlib.str (data_dir e))])).
  { apply generate_mkdir_raises; try (apply Hf; discriminate).
    unfold mkdir, fault, emit, get_fs, mbind, M_bind, mret, M_ret, raise, with_log.
    rewrite (Hf StepMkdir) by discriminate. cbn [fs stdout stderr log init_world].
    rewrite Hfile, is_dir_lookup, Hfile by apply data_dir_parts. reflexivity. }
  rewrite (run_of_main e fs0 Hn Hi), main_block_cases, G.
  change (isinstance (Raised FileExistsError _) ImportError) with false.
  change (isinstance (Raised FileExistsError _) Exception) with true.
  cbn iota. unfold handler_output.
  change (isinstance (Raised FileExistsError _) ImportError) with false.
  change (isinstance (Raised FileExistsError _) Exception) with true.
  cbn iota. cbn [exit_status final with_stdout with_log init_world fs stdout stderr log app].
  split; [reflexivity|]. split; [|split; reflexivity].
  unfold exn_str, errno_msg. rewrite !string_app_assoc. reflexivity.
Qed.

Lemma data_path_blocked_witness :
  exit_status (run repo_env blocked_fs) = 1 /\
  stdout (final (run repo_env blocked_fs)) =
    [ "Error generating sample data: [Errno 17] File exists: '/repo/data'" ++ nl ]%string /\
  fs (final (run repo_env blocked_fs)) = blocked_fs.
Proof.
  destruct (data_path_blocked repo_env blocked_fs [])
    as (H1 & H2 & _ & H4); try (vm_compute; reflexivity).
  split; [exact H1|]. split; [exact H2|exact H4].
Defined.

(** X7: the data directory is made without its parents: when it is absent
    and the project root is absent too, the directory step raises
    [FileNotFoundError]; the program prints the labelled message naming
    the data directory and exits with status 1, and nothing is created. *)
Theorem project_root_missing e fs0 :
  env_name e = "__main__" -> (forall m, env_import e m = None) ->
  (forall s, s <> StepWrite -> env_fault e s = None) ->
  fs0 !! Pathlib.str (data_dir e) = None ->
  is_dir fs0 (project_root e) = false ->
  fs0 !! Pathlib.str (project_root e) = None ->
  exit_status (run e fs0) = 1 /\
  stdout (final (run e fs0)) =
    [ "Error generating sample data: [Errno 2] No such file or directory: '"
        ++ Pathlib.str (data_dir e) ++ "'" ++ nl ]%string /\
  log (final (run e fs0)) =
    [ EvCall "generate_sample_data"; EvMkdir (Pathlib.str (data_dir e)) ] /\
  fs (final (run e fs0)) = fs0.
Proof.
  intros Hn Hi Hf Hnone Hroot Hrootnone.
  assert (G : generate_sample_data e (init_world fs0) =
              (Raise (Raised FileNotFoundError
                        (errno_msg "[Errno 2] No such file or directory" (data_dir e))),
               with_log (init_world fs0)
                 [EvCall "generate_sample_data"; EvMkdir (Pathlib.str (data_dir e))])).
  { apply generate_mkdir_raises; try (apply Hf; discriminate).
    unfold mkdir, fault, emit, get_fs, mbind, M_bind, mret, M_ret, raise, with_log.
    rewrite (Hf StepMkdir) by discriminate. cbn [fs stdout stderr log init_world].
    rewrite Hnone, (is_dir_lookup _ (data_dir e)), Hnone by apply data_dir_parts.
    rewrite data_dir_parent, Hroot, Hrootnone. reflexivity. }
  rewrite (run_of_main e fs0 Hn Hi), main_block_cases, G.
  change (isinstance (Raised FileNotFoundError _) ImportError) with false.
  change (isinstance (Raised FileNotFoundError _) Exception) with true.
  cbn iota. unfold handler_output.
  change (isinstance (Raised FileNotFoundError _) ImportError) with false.
  change (isinstance (Raised FileNotFoundError _) Exception) with true.
  cbn iota. cbn [exit_status final with_stdout with_log init_world fs stdout stderr log app].
  split; [reflexivity|]. split; [|split; reflexivity].
  unfold exn_str, errno_msg. rewrite !string_app_assoc. reflexivity.
Qed.

Lemma project_root_missing_witness :
  exit_status (run repo_env orphan_fs) = 1 /\
  stdout (final (run repo_env orphan_fs)) =
    [ "Error generating sample data: [Errno 2] No such file or directory: '/repo/data'"
        ++ nl ]%string /\
  fs (final (run repo_env orphan_fs)) = orphan_fs.
Proof.
  destruct (project_root_missing repo_env orphan_fs)
    as (H1 & H2 & _ & H4); try (vm_compute; reflexivity).
  split; [exact H1|]. split; [exact H2|exact H4].
Defined.

(** ** The two handlers and what passes them *)

Lemma import_error_is_exception x :
  isinstance x ImportError = true -> isinstance x Exception = true.
Proof.
  destruct x as [c msg|n]; [|discriminate].
  destruct c; intros H; vm_compute in H; try discriminate H; reflexivity.
Qed.

Lemma exception_not_interrupt x :
  isinstance x Exception = true ->
  exists c msg, x = Raised c msg /\ c <> KeyboardInterrupt.
Proof.
  destruct x as [c msg|n]; [|discriminate].
  intros H. exists c, msg. split; [reflexivity|]. intros ->. discriminate H.
Qed.

(** X8: an [ImportError] (or a subclass, as [ModuleNotFoundError]) raised
    inside the call is caught by the first handler: the program prints
    the two installation lines and nothing else, not the exception's own
    message, exits with status 1, writes nothing to standard error and
    leaves the disk as the failed call left it. *)
Theorem import_error_in_call e fs0 x :
  env_name e = "__main__" -> (forall m, env_import e m = None) ->
  fst (generate_sample_data e (init_world fs0)) = Raise x ->
  isinstance x ImportError = true ->
  exit_status (run e fs0) = 1 /\
  stdout (final (run e fs0)) =
    [ "Error: Required Python packages not installed." ++ nl;
      "Please install: pip install pandas pyarrow" ++ nl ]%string /\
  stderr (final (run e fs0)) = [] /\
  fs (final (run e fs0)) = fs (snd (generate_sample_data e (init_world fs0))).
Proof.
  intros Hn Hi Hg Hx.
  pose proof (generate_failure e (init_world fs0) x Hg) as (Hout & Herr & _).
  rewrite (run_of_main e fs0 Hn Hi), main_block_cases.
  destruct (generate_sample_data e (init_world fs0)) as [[p|y] w'];
    cbn [fst snd] in *; [discriminate|].
  injection Hg as ->. rewrite Hx. unfold handler_output. rewrite Hx.
  cbn [exit_status final with_stdout fs stdout stderr log].
  rewrite Hout, Herr. repeat split.
Qed.

Lemma import_error_in_call_witness :
  fst (generate_sample_data late_import_env (init_world repo_fs)) =
    Raise (Raised ImportError "cannot import name 'lib'") /\
  exit_status (run late_import_env repo_fs) = 1 /\
  stdout (final (run late_import_env repo_fs)) =
    [ "Error: Required Python packages not installed." ++ nl;
      "Please install: pip install pandas pyarrow" ++ nl ]%string.
Proof.
  split; [vm_compute; reflexivity|].
  destruct (import_error_in_call late_import_env repo_fs
              (Raised ImportError "cannot import name 'lib'"))
    as (H1 & H2 & _); try (vm_compute; reflexivity).
  split; [exact H1|exact H2].
Defined.

(** X9: when any of the five module-level imports raises an exception of
    class [Exception] (a missing or a broken module), the run ends there,
    whatever [__name__] is: standard output stays empty, the handlers of
    the main block never run, nothing is attempted, the disk is
    untouched, and the interpreter reports a traceback and exits with
    status 1. *)
Theorem failed_import_ends_run e fs0 m x :
  In m imported_modules ->
  env_import e m = Some x ->
  (forall m' x', env_import e m' = Some x' -> isinstance x' Exception = true) ->
  exit_status (run e fs0) = 1 /\
  stdout (final (run e fs0)) = [] /\
  (exists c msg,
     stderr (final (run e fs0)) =
       [ "Traceback (most recent call last):" ++ nl;
         class_name c ++ ": " ++ msg ++ nl ]%string) /\
  log (final (run e fs0)) = [] /\
  fs (final (run e fs0)) = fs0.
Proof.
  intros Hm Hx Hall. unfold run.
  destruct (script_cases e (init_world fs0)) as [(m' & y & _ & Hy & ->)|[Hi _]].
  - destruct (exception_not_interrupt y (Hall m' y Hy)) as (c & msg & -> & Hc).
    cbn [exit_status final fs stdout stderr log init_world].
    rewrite bool_decide_eq_false_2 by exact Hc.
    split; [reflexivity|]. split; [reflexivity|].
    split; [exists c, msg; reflexivity|]. split; reflexivity.
  - rewrite (Hi m Hm) in Hx. discriminate Hx.
Qed.

Lemma failed_import_ends_run_witness :
  exit_status (run no_pandas_env blocked_fs) = 1 /\
  stdout (final (run no_pandas_env blocked_fs)) = [] /\
  fs (final (run no_pandas_env blocked_fs)) = blocked_fs.
Proof.
  destruct (failed_import_ends_run no_pandas_env blocked_fs "pandas"
              (Raised ModuleNotFoundError "No module named 'pandas'"))
    as (H1 & H2 & _ & _ & H5).
  - vm_compute. auto.
  - reflexivity.
  - intros m' x'. unfold no_pandas_env, env_import.
    destruct (String.eqb m' "pandas"); [|discriminate].
    intros [= <-]. reflexivity.
  - split; [exact H1|]. split; [exact H2|exact H5].
Defined.

(** X10: generation is guarded by [__name__ == '__main__']: loaded under
    any other name (imported by another program), the file prints
    nothing, attempts nothing and touches nothing, and when its imports
    load it ends normally. *)
Theorem imported_as_module_is_inert e fs0 :
  env_name e <> "__main__" ->
  stdout (final (run e fs0)) = [] /\
  log (final (run e fs0)) = [] /\
  fs (final (run e fs0)) = fs0 /\
  ((forall m, In m imported_modules -> env_import e m = None) ->
   exit_status (run e fs0) = 0 /\ stderr (final (run e fs0)) = []).
Proof.
  intros Hn. unfold run.
  destruct (script_cases e (init_world fs0)) as [(m & x & Hm & Hx & ->)|[Hi ->]].
  - destruct x as [c msg|n]; cbn [exit_status final fs stdout stderr log init_world];
      (repeat (split; [reflexivity|]));
      intros Hi; rewrite (Hi m Hm) in Hx; discriminate Hx.
  - destruct (String.eqb (env_name e) "__main__") eqn:E.
    + apply String.eqb_eq in E. contradiction.
    + cbn. auto.
Qed.

Lemma imported_as_module_is_inert_witness :
  stdout (final (run module_env repo_fs)) = [] /\
  log (final (run module_env repo_fs)) = [] /\
  fs (final (run module_env repo_fs)) = repo_fs.
Proof.
  destruct (imported_as_module_is_inert module_env repo_fs) as (H1 & H2 & H3 & _).
  - vm_compute. discriminate.
  - split; [exact H1|]. split; [exact H2|exact H3].
Defined.

(** X11: an exception that is no instance of [Exception]
    ([KeyboardInterrupt], [SystemExit], [GeneratorExit]) passes both
    handlers: the program prints nothing on standard output, keeps the
    disk as the call left it, and ends with the code of a [SystemExit] or
    else with a traceback on standard error. *)
Theorem base_exception_passes_handlers e fs0 x :
  env_name e = "__main__" -> (forall m, env_import e m = None) ->
  fst (generate_sample_data e (init_world fs0)) = Raise x ->
  isinstance x Exception = false ->
  stdout (final (run e fs0)) = [] /\
  fs (final (run e fs0)) = fs (snd (generate_sample_data e (init_world fs0))) /\
  match x with
  | SysExit n => exit_status (run e fs0) = n /\ stderr (final (run e fs0)) = []
  | Raised c msg =>
      stderr (final (run e fs0)) =
        [ "Traceback (most recent call last):" ++ nl;
          class_name c ++ ": " ++ msg ++ nl ]%string
  end.
Proof.
  intros Hn Hi Hg Hx.
  assert (Himp : isinstance x ImportError = false).
  { destruct (isinstance x ImportError) eqn:E; [|reflexivity].
    apply import_error_is_exception in E. congruence. }
  pose proof (generate_failure e (init_world fs0) x Hg) as (Hout & Herr & _).
  rewrite (run_of_main e fs0 Hn Hi), main_block_cases.
  destruct (generate_sample_data e (init_world fs0)) as [[p|y] w'];
    cbn [fst snd] in *; [discriminate|].
  injection Hg as ->. rewrite Himp, Hx.
  destruct x as [c msg|n]; cbn [exit_status final fs stdout stderr log];
    rewrite Hout, Herr; repeat split.
Qed.

Lemma base_exception_passes_handlers_witness :
  fst (generate_sample_data interrupted_env (init_world repo_fs)) =
    Raise (Raised KeyboardInterrupt "") /\
  stdout (final (run interrupted_env repo_fs)) = [] /\
  stderr (final (run interrupted_env repo_fs)) =
    [ "Traceback (most recent call last):" ++ nl; "KeyboardInterrupt: " ++ nl ]%string.
Proof.
  split; [vm_compute; reflexivity|].
  destruct (base_exception_passes_handlers interrupted_env repo_fs
              (Raised KeyboardInterrupt ""))
    as (H1 & _ & H3); try (vm_compute; reflexivity).
  split; [exact H1|exact H3].
Defined.

(** ** What the call can raise *)

Lemma mkdir_raise_origin e p w x w' :
  mkdir e p true w = (Raise x, w') ->
  env_fault e StepMkdir = Some x \/
  exists c msg, x = Raised c msg /\ issubclass c OSError = true.
Proof.
  unfold mkdir, fault, emit, get_fs, set_node, mbind, M_bind, mret, M_ret, raise.
  destruct (env_fault e StepMkdir) as [y|]; [intros [= <- _]; auto|].
  cbn [fs stdout stderr log andb].
  destruct (is_dir (fs w) p).
  { destruct (fs w !! Pathlib.str p); discriminate. }
  destruct (fs w !! Pathlib.str p) as [n|].
  { intros [= <- _]. right. eexists _, _. split; reflexivity. }
  destruct (is_dir (fs w) (Pathlib.parent p)); [discriminate|].
  destruct (fs w !! Pathlib.str (Pathlib.parent p));
    intros [= <- _]; right; eexists _, _; split; reflexivity.
Qed.

Lemma write_raise_origin e t p c w x w' :
  pq.write_table e t p c w = (Raise x, w') ->
  env_fault e StepWrite = Some x \/
  exists cl msg, x = Raised cl msg /\ issubclass cl OSError = true.
Proof.
  unfold pq.write_table, emit, get_fs, set_node, mbind, M_bind, mret, M_ret, raise.
  destruct (env_fault e StepWrite) as [y|].
  { destruct (env_partial e); intros [= <- _]; auto. }
  cbn [fs stdout stderr log].
  destruct (is_dir (fs w) p).
  { intros [= <- _]. right. eexists _, _. split; reflexivity. }
  destruct (is_dir (fs w) (Pathlib.parent p)); [discriminate|].
  intros [= <- _]. right. eexists _, _. split; reflexivity.
Qed.

Lemma generate_raise_origin e w x :
  fst (generate_sample_data e w) = Raise x ->
  (exists s, env_fault e s = Some x) \/
  (exists c msg, x = Raised c msg /\ issubclass c OSError = true).
Proof.
  rewrite generate_steps. cbv zeta.
  destruct (env_fault e StepAssemble) as [y|] eqn:H1; [intros [= <-]; eauto|].
  destruct (env_fault e StepFrame) as [y|] eqn:H2; [intros [= <-]; eauto|].
  destruct (env_fault e StepConvert) as [y|] eqn:H3; [intros [= <-]; eauto|].
  destruct (mkdir e (data_dir e) true _) as [[[]|y] w2] eqn:Hm.
  - destruct (pq.write_table e sales_table (output_file e) "snappy" w2)
      as [[[]|y] w3] eqn:Hw; [discriminate|].
    intros [= <-]. destruct (write_raise_origin _ _ _ _ _ _ _ Hw); eauto.
  - intros [= <-]. destruct (mkdir_raise_origin _ _ _ _ _ Hm); eauto.
Qed.

(** X12: the literal data never fails the libraries' own checks: whatever
    the call raises is either what the runtime raised at one of its steps
    or an [OSError] of the directory or the write step; the frame
    constructor's length check ([ValueError]), the Arrow conversion and
    the column lookup ([KeyError]) never raise. *)
Theorem call_raises_only_runtime_or_os_errors e w x :
  fst (generate_sample_data e w) = Raise x ->
  (exists s, env_fault e s = Some x) \/
  (exists c msg, x = Raised c msg /\ issubclass c OSError = true).
Proof.
  intros H. destruct (generate_raise_origin e w x H) as [Hs|Hos]; [left|right]; assumption.
Qed.

Lemma call_raises_only_runtime_or_os_errors_witness :
  fst (generate_sample_data repo_env (init_world blocked_fs)) =
    Raise (Raised FileExistsError "[Errno 17] File exists: '/repo/data'") /\
  issubclass FileExistsError OSError = true.
Proof.
  assert (H : fst (generate_sample_data repo_env (init_world blocked_fs)) =
              Raise (Raised FileExistsError "[Errno 17] File exists: '/repo/data'"))
    by (vm_compute; reflexivity).
  split; [exact H|].
  destruct (call_raises_only_runtime_or_os_errors _ _ _ H) as [(s & Hs)|(c & msg & Hc & Hos)].
  - discriminate Hs.
  - injection Hc as <- _. exact Hos.
Defined.

(** X13: when the runtime raises no [SystemExit] of its own, exit status
    0 of the main program means success: the call returned the output
    path, the complete file is on disk and the report was printed. *)
Theorem exit_zero_means_written e fs0 :
  env_name e = "__main__" -> (forall m, env_import e m = None) ->
  (forall s n, env_fault e s <> Some (SysExit n)) ->
  exit_status (run e fs0) = 0 ->
  fst (generate_sample_data e (init_world fs0)) = Ok (output_file e) /\
  fs (final (run e fs0)) !! Pathlib.str (output_file e) =
    Some (File (env_writer e sales_table "snappy")) /\
  stdout (final (run e fs0)) = map (fun s => s ++ nl) (report e).
Proof.
  intros Hn Hi Hsys.
  pose proof (generate_raise_origin e (init_world fs0)) as Horigin.
  pose proof (generate_success e (init_world fs0)) as Hok.
  rewrite (run_of_main e fs0 Hn Hi), main_block_cases.
  destruct (generate_sample_data e (init_world fs0)) as [[p|x] w'];
    cbn [fst snd] in *.
  - intros _. destruct (Hok p eq_refl) as (-> & _ & ->).
    cbn [final fs stdout init_world app].
    split; [reflexivity|]. split; [|reflexivity].
    unfold fs_after. apply lookup_insert_eq.
  - destruct (isinstance x ImportError); [discriminate|].
    destruct (isinstance x Exception); [discriminate|].
    destruct x as [c msg|n].
    + cbn [exit_status]. destruct (bool_decide (c = KeyboardInterrupt)); discriminate.
    + destruct (Horigin (SysExit n) eq_refl) as [(s & Hs)|(c & msg & Hc & _)].
      * destruct (Hsys s n Hs).
      * discriminate Hc.
Qed.

Lemma exit_zero_means_written_witness :
  exit_status (run repo_env repo_fs) = 0 /\
  fs (final (run repo_env repo_fs)) !! "/repo/data/sales_sample.parquet" =
    Some (File (magic_writer sales_table "snappy")).
Proof.
  assert (H0 : exit_status (run repo_env repo_fs) = 0) by (vm_compute; reflexivity).
  split; [exact H0|].
  assert (Hsys : forall s n, env_fault repo_env s <> Some (SysExit n))
    by (intros s n; discriminate).
  exact (proj1 (proj2 (exit_zero_means_written repo_env repo_fs eq_refl
                         (fun _ => eq_refl) Hsys H0))).
Defined.

(** ** The paths, for every location of the script *)

(** X14: wherever the script lies (absolute, relative, at the root, even
    an empty [__file__]), the output file is the entry
    [sales_sample.parquet] directly inside the data directory, which is
    the entry [data] directly inside the project root: the parents are
    those, the string of the output path is that of the data directory
    followed by [/sales_sample.parquet], and the two never coincide. *)
Theorem output_inside_data_dir e :
  Pathlib.parent (output_file e) = data_dir e /\
  Pathlib.parent (data_dir e) = project_root e /\
  Pathlib.parts (output_file e) =
    (Pathlib.parts (project_root e) ++ ["data"; "sales_sample.parquet"])%list /\
  Pathlib.str (output_file e) = Pathlib.str (data_dir e) ++ "/sales_sample.parquet" /\
  Pathlib.str (output_file e) <> Pathlib.str (data_dir e).
Proof.
  split; [apply output_file_parent|]. split; [apply data_dir_parent|].
  split; [|split; [|apply output_file_not_data_dir]].
  - unfold output_file, data_dir. rewrite !truediv_parts by reflexivity.
    cbn [Pathlib.parts]. rewrite <- app_assoc. reflexivity.
  - unfold output_file. apply str_truediv; [reflexivity|apply data_dir_parts].
Qed.

(** X15: a script path with at most one component (a bare file name, or a
    file directly under the root) has no grandparent: the project root
    collapses to the script's own directory, so the file goes to
    [data/sales_sample.parquet] under the current directory, or under the
    root for an anchored path. *)
Theorem short_script_path e :
  (length (Pathlib.parts (Pathlib.of_string (env_file e))) <= 1)%nat ->
  project_root e = script_dir e /\
  output_file e =
    Pathlib.mkPath (Pathlib.anchor (Pathlib.of_string (env_file e)))
      ["data"; "sales_sample.parquet"].
Proof.
  intros Hlen. unfold output_file, data_dir, project_root, script_dir.
  destruct (Pathlib.of_string (env_file e)) as [a [|c [|c' ps]]];
    cbn [Pathlib.parts length] in Hlen; [| |lia].
  - split; reflexivity.
  - split; reflexivity.
Qed.

Lemma short_script_path_witness :
  Pathlib.str (output_file bare_env) = "data/sales_sample.parquet" /\
  project_root bare_env = script_dir bare_env.
Proof.
  destruct (short_script_path bare_env) as [Hr Ho].
  - vm_compute. lia.
  - split; [rewrite Ho; vm_compute; reflexivity|exact Hr].
Defined.

(** ** Identifiers as strings *)

Lemma ascii_compare_lt_trans a b c :
  Ascii.compare a b = Lt -> Ascii.compare b c = Lt -> Ascii.compare a c = Lt.
Proof.
  unfold Ascii.compare. rewrite !N.compare_lt_iff. lia.
Qed.

Lemma string_compare_lt_trans s1 : forall s2 s3,
  String.compare s1 s2 = Lt -> String.compare s2 s3 = Lt -> String.compare s1 s3 = Lt.
Proof.
  induction s1 as [|c1 s1 IH]; intros [|c2 s2] [|c3 s3]; cbn [String.compare];
    try discriminate; try reflexivity.
  destruct (Ascii.compare c1 c2) eqn:E12; try discriminate.
  - apply Ascii.compare_eq_iff in E12. subst c2.
    destruct (Ascii.compare c1 c3); try discriminate; [apply IH|reflexivity].
  - intros _. destruct (Ascii.compare c2 c3) eqn:E23; try discriminate.
    + apply Ascii.compare_eq_iff in E23. subst c3. rewrite E12. reflexivity.
    + rewrite (ascii_compare_lt_trans _ _ _ E12 E23). reflexivity.
Qed.

Lemma PyStr_lt_trans s1 s2 s3 :
  PyStr.lt s1 s2 = true -> PyStr.lt s2 s3 = true -> PyStr.lt s1 s3 = true.
Proof.
  unfold PyStr.lt, String.ltb. intros H12 H23.
  destruct (String.compare s1 s2) eqn:E12; try discriminate.
  destruct (String.compare s2 s3) eqn:E23; try discriminate.
  rewrite (string_compare_lt_trans _ _ _ E12 E23). reflexivity.
Qed.

Lemma customer_id_next_lt i :
  0 <= i < 9999 -> PyStr.lt (customer_id_of i) (customer_id_of (i + 1)) = true.
Proof.
  intros Hi.
  assert (Hall : forallb (fun k => PyStr.lt (customer_id_of k) (customer_id_of (k + 1)))
                   (PyInt.range 0 9999) = true) by (vm_compute; reflexivity).
  rewrite forallb_forall in Hall. apply Hall.
  unfold PyInt.range. apply in_map_iff. exists (Z.to_nat i).
  split; [lia|]. apply in_seq. lia.
Qed.

Lemma customer_id_lt_steps n : forall i,
  0 <= i -> i + 1 + Z.of_nat n < 10000 ->
  PyStr.lt (customer_id_of i) (customer_id_of (i + 1 + Z.of_nat n)) = true.
Proof.
  induction n as [|n IH]; intros i Hi Hn.
  - rewrite Z.add_0_r. apply customer_id_next_lt. lia.
  - apply (PyStr_lt_trans _ (customer_id_of (i + 1 + Z.of_nat n))).
    + apply IH; lia.
    + replace (i + 1 + Z.of_nat (S n)) with (i + 1 + Z.of_nat n + 1) by lia.
      apply customer_id_next_lt. lia.
Qed.

(** X16: thanks to the zero padding, the identifiers [CUST{i:04d}] sort as
    strings the way their numbers sort: for 0 <= i < j < 10000 the
    identifier of i is below that of j under string comparison; hence
    identifiers of different numbers differ, on the whole four-digit range
    and not only for the twenty rows. *)
Theorem customer_id_order i j :
  0 <= i -> i < j -> j < 10000 ->
  PyStr.lt ("CUST" ++ PyInt.format_0d 4 i) ("CUST" ++ PyInt.format_0d 4 j) = true /\
  "CUST" ++ PyInt.format_0d 4 i <> "CUST" ++ PyInt.format_0d 4 j.
Proof.
  intros Hi Hij Hj.
  assert (Hlt : PyStr.lt (customer_id_of i) (customer_id_of j) = true).
  { replace j with (i + 1 + Z.of_nat (Z.to_nat (j - i - 1))) by lia.
    apply customer_id_lt_steps; lia. }
  split; [exact Hlt|].
  intros Heq. unfold customer_id_of in Hlt. rewrite Heq in Hlt.
  exact (PyStr_lt_irreflexive _ Hlt).
Qed.

Lemma customer_id_order_witness :
  PyStr.lt "CUST0009" "CUST0010" = true /\ "CUST0009" <> "CUST0010".
Proof.
  apply (customer_id_order 9 10); lia.
Defined.

(** ** What the console and the output file can end up as *)




